(** * Beauty-clinic customer-service tools: a shallow embedding

    The development embeds [customer_service/tools/tools.py] and
    [customer_service/entities/customer.py] and states the properties of
    the tool layer against that embedding.

    Conventions.
    - A Python [str] is a list of Unicode code points ([pystr]); literals
      are written as ordinary string literals and decoded from UTF-8.
    - A Python number is an [int] (unbounded, [Z]) or a [float] (IEEE-754
      binary64, [spec_float]); comparisons between the two are exact, as
      in CPython.
    - A [dict] is an association list in insertion order.
    - A call either returns a value or raises ([outcome]).
    - [logger.info] calls have no effect on the result and are omitted. *)

From Stdlib Require Import ZArith NArith QArith Qpower List Bool Lia.
From Stdlib Require Import Strings.Byte.
From Stdlib Require Strings.String.
Import String.StringSyntax.
Delimit Scope string_scope with string.
Bind Scope string_scope with String.string.
From Stdlib Require Import Floats.SpecFloat.
Import ListNotations.

Local Open Scope Z_scope.

(* ================================================================== *)
(** * Python strings *)
(* ================================================================== *)

Module PyStr.

(** A code point. *)
Definition cp := N.

Definition pystr := list cp.

(** UTF-8 decoding, used only to read the literals of the source. *)
Fixpoint utf8_go (pending acc : N) (bs : list N) : list cp :=
  match bs with
  | [] => []
  | b :: r =>
      if (pending =? 0)%N then
        if (b <? 128)%N then b :: utf8_go 0 0 r
        else if (b <? 224)%N then utf8_go 1 (N.land b 31) r
        else if (b <? 240)%N then utf8_go 2 (N.land b 15) r
        else utf8_go 3 (N.land b 7) r
      else
        let acc' := (acc * 64 + N.land b 63)%N in
        if (pending =? 1)%N then acc' :: utf8_go 0 0 r
        else utf8_go (pending - 1) acc' r
  end.

Definition py (s : String.string) : pystr :=
  utf8_go 0 0 (map Byte.to_N (String.list_byte_of_string s)).

(** [hay.startswith(needle)]. *)
Fixpoint startswith (needle hay : pystr) : bool :=
  match needle, hay with
  | [], _ => true
  | _ :: _, [] => false
  | a :: n', b :: h' => (a =? b)%N && startswith n' h'
  end.

(** [needle in hay]. *)
Fixpoint contains (needle hay : pystr) : bool :=
  startswith needle hay
  || match hay with
     | [] => false
     | _ :: h' => contains needle h'
     end.

(** [s.split(sep)] for a separator of one character.  The result is
    never empty: a string without separator is returned whole. *)
Fixpoint split (sep : cp) (s : pystr) : list pystr :=
  match s with
  | [] => [[]]
  | c :: r =>
      if (c =? sep)%N then [] :: split sep r
      else match split sep r with
           | p :: ps => (c :: p) :: ps
           | [] => [[c]]
           end
  end.

(** Decimal digits of a natural number, most significant first. *)
Fixpoint digits_fuel (fuel : nat) (base n : N) (acc : list N) : list N :=
  match fuel with
  | O => acc
  | S f =>
      let acc' := (n mod base)%N :: acc in
      if (n / base =? 0)%N then acc'
      else digits_fuel f base (n / base)%N acc'
  end.

Definition digits (base n : N) : list N :=
  digits_fuel (S (N.to_nat (N.log2 n))) base n [].

Definition digit_char (d : N) : cp :=
  if (d <? 10)%N then (48 + d)%N else (87 + d)%N.

(** [s.rjust(width, "0")] for a digit string. *)
Definition zfill (width : nat) (s : pystr) : pystr :=
  repeat 48%N (width - length s) ++ s.

(** ["%d" % z]. *)
Definition decimal (z : Z) : pystr :=
  match z with
  | Z0 => [48%N]
  | Zpos p => map digit_char (digits 10 (Npos p))
  | Zneg p => 45%N :: map digit_char (digits 10 (Npos p))
  end.

(** ["%0<width>d" % n] for a non-negative [n]. *)
Definition decimal_pad (width : nat) (n : Z) : pystr :=
  zfill width (decimal n).

(** ["%0<width>x" % n] for a non-negative [n]. *)
Definition hex_pad (width : nat) (n : N) : pystr :=
  zfill width (map digit_char (digits 16 n)).

(** [s[i:j]] for [0 <= i <= j]. *)
Definition slice (i j : nat) (s : pystr) : pystr :=
  firstn (j - i) (skipn i s).

End PyStr.

Import PyStr.
Arguments py s%_string.

(* ================================================================== *)
(** * Python numbers and values *)
(* ================================================================== *)

Module PyNum.

Inductive pynum :=
| NInt (z : Z)
| NFloat (f : spec_float).

(** Three-way comparison of a float with an integer, exact (no
    rounding of the integer), [None] when the float is a NaN. *)
Definition float_cmp_int (f : spec_float) (k : Z) : option comparison :=
  match f with
  | S754_nan => None
  | S754_infinity s => Some (if s then Lt else Gt)
  | S754_zero _ => Some (0 ?= k)
  | S754_finite s m e =>
      let sm := if s then Z.neg m else Z.pos m in
      Some (if 0 <=? e then (sm * 2 ^ e ?= k)
            else (sm ?= k * 2 ^ (- e)))
  end.

Definition cmp_int (v : pynum) (k : Z) : option comparison :=
  match v with
  | NInt z => Some (z ?= k)
  | NFloat f => float_cmp_int f k
  end.

(** [v > k] and [v <= k] for an integer literal [k]. *)
Definition gt_int (v : pynum) (k : Z) : bool :=
  match cmp_int v k with Some Gt => true | _ => false end.

Definition le_int (v : pynum) (k : Z) : bool :=
  match cmp_int v k with Some Lt | Some Eq => true | _ => false end.

(** The rational a float stands for, when it is a number. *)
Definition float_value (f : spec_float) : option Q :=
  match f with
  | S754_zero _ => Some 0%Q
  | S754_finite s m e =>
      Some (inject_Z (if s then Z.neg m else Z.pos m) * Qpower 2 e)%Q
  | _ => None
  end.

(** The float nearest to an integer (round to nearest even). *)
Definition float_of_int (z : Z) : spec_float :=
  binary_normalize 53 1024 z 0 false.

(** The float a decimal literal [n / 10^k] denotes: the quotient of two
    exactly representable integers, correctly rounded. *)
Definition float_of_decimal (n : Z) (k : Z) : spec_float :=
  SFdiv 53 1024 (float_of_int n) (float_of_int (10 ^ k)).

End PyNum.

Import PyNum.

Module PyVal.

#[warnings="-register-all"]
Inductive pyval :=
| VNone
| VBool (b : bool)
| VInt (z : Z)
| VFloat (f : spec_float)
| VStr (s : pystr)
| VList (l : list pyval)
| VDict (d : list (pystr * pyval)).

(** [a == b] on strings. *)
Fixpoint pystr_eqb (a b : pystr) : bool :=
  match a, b with
  | [], [] => true
  | x :: a', y :: b' => (x =? y)%N && pystr_eqb a' b'
  | _, _ => false
  end.

(** [d.get(k)] on the entries of a dict. *)
Fixpoint lookup (k : pystr) (d : list (pystr * pyval)) : option pyval :=
  match d with
  | [] => None
  | (k', v) :: r => if pystr_eqb k k' then Some v else lookup k r
  end.

(** [v[k]] when [v] is a dict that has the key. *)
Definition field (k : pystr) (v : pyval) : option pyval :=
  match v with
  | VDict d => lookup k d
  | _ => None
  end.

(** How an f-string field [{v}] prints a value.  Strings are inserted
    as they are; the printing of floats and containers is left to
    [repr]. *)
Definition format_value (repr : pyval -> pystr) (v : pyval) : pystr :=
  match v with
  | VStr s => s
  | VInt z => decimal z
  | VBool true => py "True"
  | VBool false => py "False"
  | VNone => py "None"
  | _ => repr v
  end.

(** An argument that has a default value. *)
Definition or_default {A} (o : option A) (d : A) : A :=
  match o with
  | Some a => a
  | None => d
  end.

Inductive exn :=
| OverflowError
| IndexError.

Inductive outcome (A : Type) :=
| Returns (a : A)
| Raises (e : exn).

Arguments Returns {A} a.
Arguments Raises {A} e.

Definition bind {A B} (m : outcome A) (k : A -> outcome B) : outcome B :=
  match m with
  | Returns a => k a
  | Raises e => Raises e
  end.

End PyVal.

Import PyVal.

Notation "x <- m ;; k" := (bind m (fun x => k))
(at level 61, m at next level, right associativity).

(* ================================================================== *)
(** * Library behaviour the tools rely on *)
(* ================================================================== *)

(** ** [str.lower]

    CPython lowers a string code point by code point through the Unicode
    character database; the only context-sensitive case is the capital
    sigma.  The database itself is a parameter. *)

Module Unicode.

Record database := {
  to_lower_full : cp -> list cp;
  is_cased : cp -> bool;
  is_case_ignorable : cp -> bool
}.

Section Lower.

Variable db : database.

Fixpoint first_not_ignorable (l : list cp) : option cp :=
  match l with
  | [] => None
  | c :: r =>
      if is_case_ignorable db c then first_not_ignorable r else Some c
  end.

(** [before] holds the characters that precede the sigma, nearest
    first; [after] the characters that follow it. *)
Definition final_sigma (before after : pystr) : bool :=
  match first_not_ignorable before with
  | None => false
  | Some c =>
      is_cased db c
      && match first_not_ignorable after with
         | None => true
         | Some c' => negb (is_cased db c')
         end
  end.

Definition lower_char (before : pystr) (c : cp) (after : pystr) : list cp :=
  if (c =? 931)%N then
    [if final_sigma before after then 962%N else 963%N]
  else to_lower_full db c.

Fixpoint lower_from (before : pystr) (s : pystr) : pystr :=
  match s with
  | [] => []
  | c :: r => lower_char before c r ++ lower_from (c :: before) r
  end.

(** [s.lower()] *)
Definition lower (s : pystr) : pystr := lower_from [] s.

End Lower.

(** Hangul syllables, U+AC00 to U+D7A3, have no case. *)
Definition hangul_syllable (c : cp) : bool :=
  (44032 <=? c)%N && (c <=? 55203)%N.

(** What the development needs to know about the database: lowering
    leaves Hangul syllables alone. *)
Definition hangul_uncased (db : database) : Prop :=
  forall c, hangul_syllable c = true -> to_lower_full db c = [c].

(** The database restricted to Basic Latin: every other character is
    treated as uncased. *)
Definition basic_latin : database :=
  {| to_lower_full c :=
       if (65 <=? c)%N && (c <=? 90)%N then [(c + 32)%N] else [c];
     is_cased c :=
       ((65 <=? c)%N && (c <=? 90)%N) || ((97 <=? c)%N && (c <=? 122)%N);
     is_case_ignorable c :=
       existsb (N.eqb c) [39; 46; 58; 94; 96]%N |}.

End Unicode.

(** ** [datetime]

    The proleptic Gregorian calendar of the [datetime] module: dates are
    numbered from 0001-01-01 (ordinal 1) to 9999-12-31. *)

Module DateTime.

Record datetime := {
  year : Z;
  month : Z;
  day : Z;
  hour : Z;
  minute : Z;
  second : Z;
  microsecond : Z
}.

Definition DAYS_IN_MONTH : list Z :=
  [-1; 31; 28; 31; 30; 31; 30; 31; 31; 30; 31; 30; 31].

Definition DAYS_BEFORE_MONTH : list Z :=
  [-1; 0; 31; 59; 90; 120; 151; 181; 212; 243; 273; 304; 334].

Definition item (table : list Z) (i : Z) : Z :=
  nth (Z.to_nat i) table (-1).

Definition b2z (b : bool) : Z := if b then 1 else 0.

Definition is_leap (y : Z) : bool :=
  (y mod 4 =? 0) && (negb (y mod 100 =? 0) || (y mod 400 =? 0)).

Definition days_before_year (y0 : Z) : Z :=
  let y := y0 - 1 in
  y * 365 + y / 4 - y / 100 + y / 400.

Definition days_in_month (y m : Z) : Z :=
  if (m =? 2) && is_leap y then 29 else item DAYS_IN_MONTH m.

Definition days_before_month (y m : Z) : Z :=
  item DAYS_BEFORE_MONTH m + b2z ((m >? 2) && is_leap y).

Definition ymd2ord (y m d : Z) : Z :=
  days_before_year y + days_before_month y m + d.

Definition DI400Y : Z := 146097.
Definition DI100Y : Z := 36524.
Definition DI4Y : Z := 1461.
Definition MAXORDINAL : Z := 3652059.

Definition ord2ymd (n0 : Z) : Z * Z * Z :=
  let n := n0 - 1 in
  let n400 := n / DI400Y in
  let n := n mod DI400Y in
  let year := n400 * 400 + 1 in
  let n100 := n / DI100Y in
  let n := n mod DI100Y in
  let n4 := n / DI4Y in
  let n := n mod DI4Y in
  let n1 := n / 365 in
  let n := n mod 365 in
  let year := year + n100 * 100 + n4 * 4 + n1 in
  if (n1 =? 4) || (n100 =? 4) then (year - 1, 12, 31)
  else
    let leapyear := (n1 =? 3) && (negb (n4 =? 24) || (n100 =? 3)) in
    let month := Z.shiftr (n + 50) 5 in
    let preceding :=
      item DAYS_BEFORE_MONTH month + b2z ((month >? 2) && leapyear) in
    if preceding >? n then
      let month := month - 1 in
      let preceding :=
        preceding
        - (item DAYS_IN_MONTH month + b2z ((month =? 2) && leapyear)) in
      (year, month, n - preceding + 1)
    else (year, month, n - preceding + 1).

(** [dt.toordinal()] *)
Definition toordinal (dt : datetime) : Z :=
  ymd2ord (year dt) (month dt) (day dt).

(** [timedelta(days=n)]: the number of days is bounded. *)
Definition timedelta_days (n : Z) : outcome Z :=
  if Z.abs n >? 999999999 then Raises OverflowError else Returns n.

(** [dt + delta] for a delta of whole days: the time of day is kept and
    the date must stay within the calendar. *)
Definition add_days (dt : datetime) (delta : Z) : outcome datetime :=
  let o := toordinal dt + delta in
  if (0 <? o) && (o <=? MAXORDINAL) then
    let '(y, m, d) := ord2ymd o in
    Returns {| year := y; month := m; day := d;
               hour := hour dt; minute := minute dt; second := second dt;
               microsecond := microsecond dt |}
  else Raises OverflowError.

(** [dt.strftime("%Y-%m-%d")], the year printed with four digits. *)
Definition strftime_Ymd (dt : datetime) : pystr :=
  decimal_pad 4 (year dt) ++ py "-" ++ decimal_pad 2 (month dt)
  ++ py "-" ++ decimal_pad 2 (day dt).

(** [dt.isoformat()] for a naive datetime. *)
Definition isoformat (dt : datetime) : pystr :=
  decimal_pad 4 (year dt) ++ py "-" ++ decimal_pad 2 (month dt)
  ++ py "-" ++ decimal_pad 2 (day dt) ++ py "T"
  ++ decimal_pad 2 (hour dt) ++ py ":" ++ decimal_pad 2 (minute dt)
  ++ py ":" ++ decimal_pad 2 (second dt)
  ++ (if microsecond dt =? 0 then []
      else py "." ++ decimal_pad 6 (microsecond dt)).

(** The datetimes the library can construct. *)
Definition valid (dt : datetime) : Prop :=
  1 <= year dt <= 9999 /\ 1 <= month dt <= 12
  /\ 1 <= day dt <= days_in_month (year dt) (month dt)
  /\ 0 <= hour dt <= 23 /\ 0 <= minute dt <= 59
  /\ 0 <= second dt <= 59 /\ 0 <= microsecond dt <= 999999.

End DateTime.

(** ** [uuid.uuid4] *)

Module Uuid.

(** [int.from_bytes(bs, "big")] *)
Definition from_bytes (bs : list N) : Z :=
  fold_left (fun acc b => acc * 256 + Z.of_N b) bs 0.

(** The integer of [UUID(bytes=bs, version=4)]: variant and version
    bits are overwritten. *)
Definition uuid4_int (bs : list N) : Z :=
  let i := from_bytes bs in
  let i := Z.land i (Z.lnot (Z.shiftl 49152 48)) in
  let i := Z.lor i (Z.shiftl 32768 48) in
  let i := Z.land i (Z.lnot (Z.shiftl 61440 64)) in
  Z.lor i (Z.shiftl 4 76).

(** [str(uuid.uuid4())], given the sixteen bytes [os.urandom] returned. *)
Definition uuid4_str (bs : list N) : pystr :=
  let hex := hex_pad 32 (Z.to_N (uuid4_int bs)) in
  slice 0 8 hex ++ py "-" ++ slice 8 12 hex ++ py "-"
  ++ slice 12 16 hex ++ py "-" ++ slice 16 20 hex ++ py "-"
  ++ skipn 20 hex.

End Uuid.

(** What a call reads from its environment: the clock and the system's
    random bytes. *)
Record world := {
  now : DateTime.datetime;
  urandom16 : list N
}.

(* ================================================================== *)
(** * The customer profile ([entities/customer.py]) *)
(* ================================================================== *)

Module Entities.

Record Address := {
  street : pystr;
  city : pystr;
  state : pystr;
  zip : pystr
}.

Record Product := {
  product_id : pystr;
  name : pystr;
  quantity : Z
}.

Record Purchase := {
  date : pystr;
  items : list Product;
  total_amount : spec_float
}.

Record CommunicationPreferences := {
  email_pref : bool;
  sms : bool;
  push_notifications : bool
}.

Record BeautyProfile := {
  skin_type : pystr;
  concerns : list pystr;
  previous_treatments : list pystr;
  preferred_treatment_time : pystr;
  budget_range : pystr
}.

Record Customer := {
  account_number : pystr;
  customer_id : pystr;
  customer_first_name : pystr;
  customer_last_name : pystr;
  email : pystr;
  phone_number : pystr;
  customer_start_date : pystr;
  years_as_customer : Z;
  billing_address : Address;
  treatment_history : list Purchase;
  loyalty_points : Z;
  preferred_clinic : pystr;
  communication_preferences : CommunicationPreferences;
  beauty_profile : BeautyProfile;
  scheduled_appointments : list (pystr * pyval)
}.

(** [Customer.get_customer(current_customer_id)]; the declared result is
    [Optional[Customer]]. *)
Definition get_customer (current_customer_id : pystr) : option Customer :=
  Some
    {| customer_id := current_customer_id;
       account_number := py "428765091";
       customer_first_name := py "민지";
       customer_last_name := py "김";
       email := py "minji.kim@example.com";
       phone_number := py "+82-10-1234-5678";
       customer_start_date := py "2022-06-10";
       years_as_customer := 2;
       billing_address :=
         {| street := py "123 강남대로"; city := py "서울";
            state := py "강남구"; zip := py "06292" |};
       treatment_history :=
         [ {| date := py "2023-03-05";
              items :=
                [ {| product_id := py "botox-111";
                     name := py "보톡스 (이마)"; quantity := 1 |};
                  {| product_id := py "skincare-222";
                     name := py "하이드라페이셜"; quantity := 1 |} ];
              total_amount := float_of_int 350000 |};
           {| date := py "2023-07-12";
              items :=
                [ {| product_id := py "filler-333";
                     name := py "필러 (볼)"; quantity := 1 |};
                  {| product_id := py "laser-444";
                     name := py "레이저 토닝"; quantity := 1 |} ];
              total_amount := float_of_int 520000 |};
           {| date := py "2024-01-20";
              items :=
                [ {| product_id := py "peel-555";
                     name := py "화학적 필링"; quantity := 1 |};
                  {| product_id := py "massage-666";
                     name := py "얼굴 마사지"; quantity := 1 |} ];
              total_amount := float_of_int 180000 |} ];
       loyalty_points := 1050;
       preferred_clinic := py "엘리트 뷰티 클리닉 강남점";
       communication_preferences :=
         {| email_pref := true; sms := true; push_notifications := true |};
       beauty_profile :=
         {| skin_type := py "복합성";
            concerns := [py "색소침착"; py "주름"; py "모공"];
            previous_treatments := [py "보톡스"; py "필러"; py "레이저토닝"];
            preferred_treatment_time := py "오후";
            budget_range := py "월 30-50만원" |};
       scheduled_appointments := [] |}.

(** The profile with another id in its [customer_id] field. *)
Definition with_customer_id (cid : pystr) (c : Customer) : Customer :=
  {| customer_id := cid;
     account_number := account_number c;
     customer_first_name := customer_first_name c;
     customer_last_name := customer_last_name c;
     email := email c;
     phone_number := phone_number c;
     customer_start_date := customer_start_date c;
     years_as_customer := years_as_customer c;
     billing_address := billing_address c;
     treatment_history := treatment_history c;
     loyalty_points := loyalty_points c;
     preferred_clinic := preferred_clinic c;
     communication_preferences := communication_preferences c;
     beauty_profile := beauty_profile c;
     scheduled_appointments := scheduled_appointments c |}.

End Entities.

(* ================================================================== *)
(** * The tools *)
(* ================================================================== *)

Module Tools.

Import DateTime.

Definition dict (entries : list (pystr * pyval)) : pyval := VDict entries.

Definition str (s : String.string) : pyval := VStr (py s).

Arguments str s%_string.

(** [send_call_companion_link(phone_number)] *)
Definition send_call_companion_link (phone_number : pystr) : pyval :=
  dict [ (py "status", str "success");
         (py "message", VStr (py "Link sent to " ++ phone_number)) ].

(** [approve_discount(discount_type, value, reason)] *)
Definition approve_discount (discount_type : pystr) (value : pynum)
    (reason : pystr) : pyval :=
  if gt_int value 10 then
    dict [ (py "status", str "rejected");
           (py "message", str "discount too large. Must be 10 or less.") ]
  else
    dict [ (py "status", str "ok") ].

(** [sync_ask_for_approval(discount_type, value, reason)] *)
Definition sync_ask_for_approval (discount_type : pystr) (value : pynum)
    (reason : pystr) : pyval :=
  dict [ (py "status", str "approved") ].

(** [update_salesforce_crm(customer_id, details)] *)
Definition update_salesforce_crm (customer_id : pystr)
    (details : list (pystr * pyval)) : pyval :=
  dict [ (py "status", str "success");
         (py "message", str "Salesforce record updated.") ].

(** [access_cart_information(customer_id)] *)
Definition access_cart_information (customer_id : pystr) : pyval :=
  dict [ (py "items",
          VList [ dict [ (py "product_id", str "botox-123");
                         (py "name", str "보톡스 (눈가)");
                         (py "quantity", VInt 1);
                         (py "price", VInt 250000) ];
                  dict [ (py "product_id", str "facial-456");
                         (py "name", str "딥클렌징 페이셜");
                         (py "quantity", VInt 1);
                         (py "price", VInt 180000) ] ]);
         (py "subtotal", VInt 430000) ].

(** [modify_cart(customer_id, items_to_add, items_to_remove)] *)
Definition modify_cart (customer_id : pystr)
    (items_to_add items_to_remove : list pyval) : pyval :=
  dict [ (py "status", str "success");
         (py "message", str "Cart updated successfully.");
         (py "items_added", VBool true);
         (py "items_removed", VBool true) ].

Definition treatment (product_id name description : String.string)
    (price : Z) : pyval :=
  dict [ (py "product_id", str product_id);
         (py "name", str name);
         (py "description", str description);
         (py "price", VInt price) ].

Definition wrinkle_recommendations : pyval :=
  dict [ (py "recommendations",
          VList [ treatment "botox-456" "보톡스 (이마)"
                    "이마 주름 개선에 효과적인 시술입니다." 200000;
                  treatment "filler-789" "히알루론산 필러"
                    "깊은 주름 및 볼륨 개선을 위한 시술입니다." 300000 ]) ].

Definition pigmentation_recommendations : pyval :=
  dict [ (py "recommendations",
          VList [ treatment "laser-456" "피코 레이저"
                    "멜라닌 색소 분해로 색소침착 개선에 탁월합니다." 150000;
                  treatment "ipl-789" "IPL 광치료"
                    "다양한 색소 질환과 홍조 개선에 효과적입니다." 120000 ]) ].

Definition default_recommendations : pyval :=
  dict [ (py "recommendations",
          VList [ treatment "facial-123" "하이드라페이셜"
                    "모든 피부 타입에 적합한 기본 관리 시술입니다." 150000;
                  treatment "peel-456" "화학적 필링"
                    "각질 제거 및 피부 톤 개선에 효과적입니다." 100000 ]) ].

(** [get_product_recommendations(skin_concern, customer_id)] *)
Definition get_product_recommendations (db : Unicode.database)
    (skin_concern customer_id : pystr) : pyval :=
  if contains (py "주름") (Unicode.lower db skin_concern) then
    wrinkle_recommendations
  else if contains (py "색소침착") (Unicode.lower db skin_concern) then
    pigmentation_recommendations
  else
    default_recommendations.

(** [check_product_availability(product_id, store_id)] *)
Definition check_product_availability (product_id store_id : pystr)
    : pyval :=
  dict [ (py "available", VBool true);
         (py "quantity", VInt 10);
         (py "store", VStr store_id) ].

(** [l[0]] *)
Definition first_item (l : list pystr) : outcome pystr :=
  match l with
  | x :: _ => Returns x
  | [] => Raises IndexError
  end.

(** [schedule_planting_service(customer_id, date, time_range, details)] *)
Definition schedule_planting_service (w : world)
    (customer_id date time_range details : pystr) : outcome pyval :=
  start_time_str <- first_item (split 45%N time_range) ;;
  let confirmation_time_str :=
    date ++ py " " ++ start_time_str ++ py ":00" in
  Returns
    (dict [ (py "status", str "success");
            (py "appointment_id", VStr (Uuid.uuid4_str (urandom16 w)));
            (py "date", VStr date);
            (py "time", VStr time_range);
            (py "treatment", VStr details);
            (py "confirmation_time", VStr confirmation_time_str);
            (py "location", str "엘리트 뷰티 클리닉 강남점") ]).

(** [get_available_planting_times(date)] *)
Definition get_available_planting_times (date : pystr) : pyval :=
  VList [ str "9-11"; str "11-13"; str "14-16"; str "16-18"; str "18-20" ].

(** [send_care_instructions(customer_id, treatment_type, delivery_method)] *)
Definition send_care_instructions
    (customer_id treatment_type delivery_method : pystr) : pyval :=
  let delivery_method_kr :=
    if pystr_eqb delivery_method (py "email") then py "이메일"
    else py "SMS" in
  dict [ (py "status", str "success");
         (py "message",
          VStr (treatment_type ++ py " 시술 후 관리 안내를 "
                ++ delivery_method_kr ++ py "로 발송했습니다.")) ].

(** The part of [generate_qr_code] after the guardrails: the voucher,
    with its expiration date computed from the clock. *)
Definition qr_voucher (w : world) (expiration_days : Z) : outcome pyval :=
  delta <- timedelta_days expiration_days ;;
  expires <- add_days (now w) delta ;;
  Returns
    (dict [ (py "status", str "success");
            (py "qr_code_data", str "MOCK_QR_CODE_DATA");
            (py "expiration_date", VStr (strftime_Ymd expires)) ]).

(** [generate_qr_code(customer_id, discount_value, discount_type,
    expiration_days)] *)
Definition generate_qr_code (w : world) (customer_id : pystr)
    (discount_value : pynum) (discount_type : pystr)
    (expiration_days : Z) : outcome pyval :=
  let after_percentage_check :=
    if pystr_eqb discount_type (py "fixed") && gt_int discount_value 20
    then
      Returns
        (str "cannot generate a QR code for this amount, must be 20 or less")
    else qr_voucher w expiration_days in
  if pystr_eqb discount_type (py "")
     || pystr_eqb discount_type (py "percentage")
  then
    if gt_int discount_value 10 then
      Returns
        (str "cannot generate a QR code for this amount, must be 10% or less")
    else after_percentage_check
  else after_percentage_check.

(** [send_satisfaction_survey(customer_id, treatment_type,
    delivery_method="email")] *)
Definition send_satisfaction_survey (customer_id treatment_type : pystr)
    (delivery_method : option pystr) : pyval :=
  let delivery_method := or_default delivery_method (py "email") in
  let delivery_method_kr :=
    if pystr_eqb delivery_method (py "email") then py "이메일"
    else py "SMS" in
  dict [ (py "status", str "success");
         (py "message",
          VStr (treatment_type ++ py " 시술 만족도 조사를 "
                ++ delivery_method_kr ++ py "로 발송했습니다."));
         (py "survey_link",
          VStr (py "https://survey.elitebeauty.com/" ++ customer_id
                ++ py "/" ++ treatment_type)) ].

(** [collect_feedback(customer_id, rating, feedback, treatment_type)] *)
Definition collect_feedback (customer_id : pystr) (rating : Z)
    (feedback treatment_type : pystr) : pyval :=
  if (rating <? 1) || (rating >? 5) then
    dict [ (py "status", str "error");
           (py "message", str "평점은 1~5점 사이여야 합니다.") ]
  else
    dict [ (py "status", str "success");
           (py "message", str "피드백이 성공적으로 저장되었습니다.");
           (py "rating", VInt rating);
           (py "feedback", VStr feedback);
           (py "treatment", VStr treatment_type) ].

(** [get_satisfaction_statistics(clinic_id="gangnam")] *)
Definition get_satisfaction_statistics (clinic_id : option pystr) : pyval :=
  dict [ (py "average_rating", VFloat (float_of_decimal 48 1));
         (py "total_reviews", VInt 150);
         (py "satisfaction_rate", VInt 96);
         (py "top_rated_treatments",
          VList [ dict [ (py "name", str "보톡스");
                         (py "rating", VFloat (float_of_decimal 49 1)) ];
                  dict [ (py "name", str "필러");
                         (py "rating", VFloat (float_of_decimal 47 1)) ];
                  dict [ (py "name", str "레이저토닝");
                         (py "rating", VFloat (float_of_decimal 48 1)) ] ]) ].

Definition reminder_messages : list (pystr * pyval) :=
  [ (py "24h", str "24시간 전 예약 알림을 발송했습니다.");
    (py "2h", str "2시간 전 예약 알림을 발송했습니다.");
    (py "30min", str "30분 전 예약 알림을 발송했습니다.") ].

(** [send_appointment_reminder(customer_id, appointment_id,
    reminder_type="24h")] *)
Definition send_appointment_reminder (customer_id appointment_id : pystr)
    (reminder_type : option pystr) : pyval :=
  let reminder_type := or_default reminder_type (py "24h") in
  dict [ (py "status", str "success");
         (py "message",
          or_default (lookup reminder_type reminder_messages)
            (str "예약 알림을 발송했습니다."));
         (py "appointment_id", VStr appointment_id);
         (py "reminder_type", VStr reminder_type) ].

(** [set_appointment_notifications(customer_id, appointment_id,
    notifications)] *)
Definition set_appointment_notifications
    (customer_id appointment_id : pystr)
    (notifications : list (pystr * pyval)) : pyval :=
  dict [ (py "status", str "success");
         (py "message", str "알림 설정이 완료되었습니다.");
         (py "appointment_id", VStr appointment_id);
         (py "notifications", VDict notifications) ].

(** [check_upcoming_appointments(customer_id)] *)
Definition check_upcoming_appointments (customer_id : pystr) : pyval :=
  dict [ (py "appointments",
          VList [ dict [ (py "appointment_id", str "apt123");
                         (py "date", str "2024-05-25");
                         (py "time", str "14-16");
                         (py "treatment", str "보톡스 (이마)");
                         (py "location", str "엘리트 뷰티 클리닉 강남점");
                         (py "doctor", str "김미용 원장");
                         (py "status", str "confirmed") ];
                  dict [ (py "appointment_id", str "apt124");
                         (py "date", str "2024-05-30");
                         (py "time", str "11-13");
                         (py "treatment", str "필러 (볼)");
                         (py "location", str "엘리트 뷰티 클리닉 강남점");
                         (py "doctor", str "이성형 원장");
                         (py "status", str "pending") ] ]) ].

(** [send_mobile_app_notification(customer_id, message,
    notification_type="general")] *)
Definition send_mobile_app_notification (w : world)
    (customer_id message : pystr) (notification_type : option pystr)
    : pyval :=
  let notification_type := or_default notification_type (py "general") in
  dict [ (py "status", str "success");
         (py "message", str "모바일 앱 알림이 발송되었습니다.");
         (py "notification_id", VStr (Uuid.uuid4_str (urandom16 w)));
         (py "customer_id", VStr customer_id);
         (py "type", VStr notification_type) ].

(** The loop of [generate_mobile_deep_link]: one ["&key=value"] is
    appended to the URL for each entry, in the order of the dict. *)
Definition append_parameter (repr : pyval -> pystr) (base_url : pystr)
    (entry : pystr * pyval) : pystr :=
  base_url ++ py "&" ++ fst entry ++ py "=" ++ format_value repr (snd entry).

(** [generate_mobile_deep_link(customer_id, target_screen,
    parameters=None)] *)
Definition generate_mobile_deep_link (repr : pyval -> pystr)
    (customer_id target_screen : pystr)
    (parameters : option (list (pystr * pyval))) : pyval :=
  let base_url :=
    py "elitebeauty://" ++ target_screen ++ py "?customer_id="
    ++ customer_id in
  let base_url :=
    match parameters with
    | None | Some [] => base_url
    | Some entries => fold_left (append_parameter repr) entries base_url
    end in
  dict [ (py "status", str "success");
         (py "deep_link", VStr base_url);
         (py "qr_code",
          VStr (py "https://api.qrserver.com/v1/create-qr-code/?data="
                ++ base_url)) ].

(** [sync_customer_data_to_app(customer_id)] *)
Definition sync_customer_data_to_app (w : world) (customer_id : pystr)
    : pyval :=
  dict [ (py "status", str "success");
         (py "message", str "고객 데이터가 모바일 앱에 동기화되었습니다.");
         (py "sync_timestamp", VStr (isoformat (now w)));
         (py "customer_id", VStr customer_id) ].

(** [get_mobile_app_analytics(customer_id)] *)
Definition get_mobile_app_analytics (customer_id : pystr) : pyval :=
  dict [ (py "last_login", str "2024-05-23T10:30:00");
         (py "total_sessions", VInt 15);
         (py "most_used_feature", str "appointment_booking");
         (py "app_version", str "2.1.0");
         (py "device_type", str "iOS");
         (py "push_notifications_enabled", VBool true);
         (py "preferences",
          dict [ (py "language", str "ko");
                 (py "theme", str "light");
                 (py "notifications",
                  dict [ (py "appointments", VBool true);
                         (py "promotions", VBool false);
                         (py "news", VBool true) ]) ]) ].

End Tools.

(* ================================================================== *)
(** * The tool boundary *)
(* ================================================================== *)

(** What the runtime supplies besides the clock and the random bytes:
    the Unicode database behind [str.lower] and the printing of floats
    and containers. *)
Record runtime := {
  unicode_db : Unicode.database;
  repr : pyval -> pystr
}.

(** A call of a tool by name, with arguments of the declared types. *)
Inductive tool_call :=
| SendCallCompanionLink (phone_number : pystr)
| ApproveDiscount (discount_type : pystr) (value : pynum) (reason : pystr)
| SyncAskForApproval (discount_type : pystr) (value : pynum)
    (reason : pystr)
| UpdateSalesforceCrm (customer_id : pystr)
    (details : list (pystr * pyval))
| AccessCartInformation (customer_id : pystr)
| ModifyCart (customer_id : pystr) (items_to_add items_to_remove : list pyval)
| GetProductRecommendations (skin_concern customer_id : pystr)
| CheckProductAvailability (product_id store_id : pystr)
| SchedulePlantingService (customer_id date time_range details : pystr)
| GetAvailablePlantingTimes (date : pystr)
| SendCareInstructions (customer_id treatment_type delivery_method : pystr)
| GenerateQrCode (customer_id : pystr) (discount_value : pynum)
    (discount_type : pystr) (expiration_days : Z)
| SendSatisfactionSurvey (customer_id treatment_type : pystr)
    (delivery_method : option pystr)
| CollectFeedback (customer_id : pystr) (rating : Z)
    (feedback treatment_type : pystr)
| GetSatisfactionStatistics (clinic_id : option pystr)
| SendAppointmentReminder (customer_id appointment_id : pystr)
    (reminder_type : option pystr)
| SetAppointmentNotifications (customer_id appointment_id : pystr)
    (notifications : list (pystr * pyval))
| CheckUpcomingAppointments (customer_id : pystr)
| SendMobileAppNotification (customer_id message : pystr)
    (notification_type : option pystr)
| GenerateMobileDeepLink (customer_id target_screen : pystr)
    (parameters : option (list (pystr * pyval)))
| SyncCustomerDataToApp (customer_id : pystr)
| GetMobileAppAnalytics (customer_id : pystr).

Definition call_tool (rt : runtime) (w : world) (c : tool_call)
    : outcome pyval :=
  match c with
  | SendCallCompanionLink p => Returns (Tools.send_call_companion_link p)
  | ApproveDiscount t v r => Returns (Tools.approve_discount t v r)
  | SyncAskForApproval t v r => Returns (Tools.sync_ask_for_approval t v r)
  | UpdateSalesforceCrm cid d => Returns (Tools.update_salesforce_crm cid d)
  | AccessCartInformation cid => Returns (Tools.access_cart_information cid)
  | ModifyCart cid a r => Returns (Tools.modify_cart cid a r)
  | GetProductRecommendations s cid =>
      Returns (Tools.get_product_recommendations (unicode_db rt) s cid)
  | CheckProductAvailability p st =>
      Returns (Tools.check_product_availability p st)
  | SchedulePlantingService cid d t det =>
      Tools.schedule_planting_service w cid d t det
  | GetAvailablePlantingTimes d =>
      Returns (Tools.get_available_planting_times d)
  | SendCareInstructions cid t m =>
      Returns (Tools.send_care_instructions cid t m)
  | GenerateQrCode cid v t days => Tools.generate_qr_code w cid v t days
  | SendSatisfactionSurvey cid t m =>
      Returns (Tools.send_satisfaction_survey cid t m)
  | CollectFeedback cid r f t => Returns (Tools.collect_feedback cid r f t)
  | GetSatisfactionStatistics cl =>
      Returns (Tools.get_satisfaction_statistics cl)
  | SendAppointmentReminder cid a t =>
      Returns (Tools.send_appointment_reminder cid a t)
  | SetAppointmentNotifications cid a n =>
      Returns (Tools.set_appointment_notifications cid a n)
  | CheckUpcomingAppointments cid =>
      Returns (Tools.check_upcoming_appointments cid)
  | SendMobileAppNotification cid m t =>
      Returns (Tools.send_mobile_app_notification w cid m t)
  | GenerateMobileDeepLink cid t ps =>
      Returns (Tools.generate_mobile_deep_link (repr rt) cid t ps)
  | SyncCustomerDataToApp cid =>
      Returns (Tools.sync_customer_data_to_app w cid)
  | GetMobileAppAnalytics cid =>
      Returns (Tools.get_mobile_app_analytics cid)
  end.

(** ** A concrete environment

    Used to evaluate the tools on examples: the clock reads 2024-07-25
    09:30:00, the date of the docstring example of [generate_qr_code]. *)

Definition sample_runtime : runtime :=
  {| unicode_db := Unicode.basic_latin;
     repr := fun _ => py "?" |}.

Definition sample_now : DateTime.datetime :=
  {| DateTime.year := 2024; DateTime.month := 7; DateTime.day := 25;
     DateTime.hour := 9; DateTime.minute := 30; DateTime.second := 0;
     DateTime.microsecond := 0 |}.

Definition sample_world : world :=
  {| now := sample_now;
     urandom16 := [18; 52; 86; 120; 154; 188; 222; 240;
                   1; 35; 69; 103; 137; 171; 205; 239]%N |}.

(** ** The spec's words

    Definitions that follow the wording of the specification, to compare
    with what the code computes. *)

(** [needle] occurs in [hay] as a contiguous substring. *)
Definition occurs_in (needle hay : pystr) : Prop :=
  exists pre post, hay = pre ++ needle ++ post.

(** Case-insensitive containment of a keyword. *)
Definition occurs_ignoring_case (db : Unicode.database)
    (keyword s : pystr) : Prop :=
  occurs_in keyword (Unicode.lower db s).

(** The deep link: the base URL followed by one ["&key=value"] per entry
    of the parameters, in their order. *)
Definition deep_link_of (repr : pyval -> pystr)
    (customer_id target_screen : pystr)
    (parameters : option (list (pystr * pyval))) : pystr :=
  py "elitebeauty://" ++ target_screen ++ py "?customer_id=" ++ customer_id
  ++ concat
       (map (fun entry =>
               py "&" ++ fst entry ++ py "=" ++ format_value repr (snd entry))
            (or_default parameters [])).

(** A date written [YYYY-MM-DD]: four digits of the year, two of the
    month, two of the day. *)
Definition digit_at (z k : Z) : cp := Z.to_N (48 + (z / 10 ^ k) mod 10).

Definition yyyy_mm_dd (y m d : Z) : pystr :=
  [ digit_at y 3; digit_at y 2; digit_at y 1; digit_at y 0; 45%N;
    digit_at m 1; digit_at m 0; 45%N; digit_at d 1; digit_at d 0 ].

(** The day [days] days after the day of [today] exists in the calendar. *)
Definition representable (today : DateTime.datetime) (days : Z) : Prop :=
  1 <= DateTime.toordinal today + days <= DateTime.MAXORDINAL.

(** [out] is a success result whose expiration date is the date [days]
    days after the clock's date, written [YYYY-MM-DD]. *)
Definition qr_success (w : world) (days : Z) (out : outcome pyval) : Prop :=
  exists expires,
    DateTime.valid expires
    /\ DateTime.toordinal expires = DateTime.toordinal (now w) + days
    /\ out
       = Returns
           (Tools.dict
              [ (py "status", Tools.str "success");
                (py "qr_code_data", Tools.str "MOCK_QR_CODE_DATA");
                (py "expiration_date",
                 VStr (yyyy_mm_dd (DateTime.year expires)
                         (DateTime.month expires) (DateTime.day expires))) ]).


Definition over_percentage_cap (discount_type : pystr) (v : pynum) : Prop :=
  (discount_type = py "" \/ discount_type = py "percentage")
  /\ gt_int v 10 = true.

Definition over_fixed_cap (discount_type : pystr) (v : pynum) : Prop :=
  discount_type = py "fixed" /\ gt_int v 20 = true.




(** ** The error conditions of the tools

    The three places where a tool checks an argument and refuses. *)
Definition refuses (c : tool_call) : bool :=
  match c with
  | ApproveDiscount _ value _ => gt_int value 10
  | CollectFeedback _ rating _ _ => (rating <? 1) || (rating >? 5)
  | GenerateQrCode _ v t _ =>
      ((pystr_eqb t (py "") || pystr_eqb t (py "percentage"))
       && gt_int v 10)
      || (pystr_eqb t (py "fixed") && gt_int v 20)
  | _ => false
  end.





(** ** Exhaustive checks

    [all_from bits lo f] holds when [f] holds on the [2 ^ bits] integers
    from [lo] on. *)
Fixpoint all_from (bits : nat) (lo : Z) (f : Z -> bool) : bool :=
  match bits with
  | O => f lo
  | S b => all_from b lo f && all_from b (lo + 2 ^ Z.of_nat b) f
  end.

(** Day [r] of the first 400-year cycle converts to a date of that
    cycle, and the date converts back. *)
Definition cycle_day_ok (r : Z) : bool :=
  (DateTime.DI400Y <=? r)
  || let '(y, m, d) := DateTime.ord2ymd (r + 1) in
     (1 <=? y) && (y <=? 400) && (1 <=? m) && (m <=? 12)
     && (1 <=? d) && (d <=? DateTime.days_in_month y m)
     && (DateTime.ymd2ord y m d =? r + 1).

(** A number below [10 ^ width] is printed with its [width] digits. *)
Definition padded_ok (width : nat) (z : Z) : bool :=
  (10 ^ Z.of_nat width <=? z)
  || pystr_eqb (decimal_pad width z)
       (map (fun k => digit_at z (Z.of_nat k)) (rev (seq 0 width))).

Definition shift_years (k : Z) (date : Z * Z * Z) : Z * Z * Z :=
  let '(y, m, d) := date in (y + k, m, d).

(** ** Further definitions

    Used by the properties beyond the specification's own. *)

(** The message of a reminder whose type is not known. *)
Definition generic_reminder : pyval := Tools.str "예약 알림을 발송했습니다.".

Definition well_formed_recommendation (v : pyval) : Prop :=
  exists product_id name description price,
    v = Tools.dict [ (py "product_id", VStr product_id);
               (py "name", VStr name);
               (py "description", VStr description);
               (py "price", VInt price) ]
    /\ 0 < price
    /\ existsb Unicode.hangul_syllable name = true.

Definition link_of (result : pyval) : pystr :=
  match field (py "deep_link") result with
  | Some (VStr link) => link
  | _ => []
  end.


(** The number that digits write in a base, most significant first. *)
Definition digits_value (base : N) (ds : list N) : N :=
  fold_left (fun acc d => acc * base + d)%N ds 0%N.

(** The [width] digits of [n] by position, most significant first. *)
Definition positional (base : N) (width : nat) (n : N) : list N :=
  map (fun k => (n / base ^ N.of_nat k) mod base)%N (rev (seq 0 width)).

(** What [os.urandom(16)] returns: sixteen bytes. *)
Definition sixteen_bytes (bs : list N) : Prop :=
  length bs = 16%nat /\ Forall (fun b => b < 256)%N bs.

(** The bits of the random number that a version-4 UUID keeps: all but
    the two variant bits and the four version bits. *)
Definition uuid_kept_bits : Z :=
  Z.lnot (Z.lor (Z.shiftl 49152 48) (Z.shiftl 61440 64)).

(** A lowercase hexadecimal digit. *)
Definition is_hex_char (c : cp) : bool :=
  ((48 <=? c) && (c <=? 57))%N || ((97 <=? c) && (c <=? 102))%N.

(** The shape of a version-4 UUID in its usual notation: 36 characters,
    dashes at four places and lowercase hexadecimal digits elsewhere,
    the version digit [4] and a variant digit among [8 9 a b]. *)
Definition uuid4_shape (id : pystr) : Prop :=
  length id = 36%nat
  /\ (forall (position : nat) (c : cp),
        nth_error id position = Some c ->
        if existsb (Nat.eqb position) [8; 13; 18; 23]%nat
        then c = 45%N
        else is_hex_char c = true)
  /\ nth_error id 14 = Some 52%N
  /\ (exists v, nth_error id 19 = Some v /\ In v [56; 57; 97; 98]%N).

(** The appointment id of a scheduling result. *)
Definition appointment_id_of (out : outcome pyval) : option pyval :=
  match out with
  | Returns result => field (py "appointment_id") result
  | Raises _ => None
  end.

(** Random bytes that differ from those of [sample_world] in the seventh
    byte only, within the four bits a version-4 UUID overwrites. *)
Definition sample_world_other : world :=
  {| now := sample_now;
     urandom16 := [18; 52; 86; 120; 154; 188; 126; 240;
                   1; 35; 69; 103; 137; 171; 205; 239]%N |}.

(** The price of a cart line, and of a cart. *)
Definition line_total (item : pyval) : option Z :=
  match field (py "price") item, field (py "quantity") item with
  | Some (VInt price), Some (VInt quantity) => Some (price * quantity)
  | _, _ => None
  end.

Fixpoint cart_total (items : list pyval) : option Z :=
  match items with
  | [] => Some 0
  | item :: rest =>
      match line_total item, cart_total rest with
      | Some a, Some b => Some (a + b)
      | _, _ => None
      end
  end.

(** A cart line has the four keys the unit test asks for. *)
Definition cart_line (item : pyval) : Prop :=
  exists product_id name quantity price,
    field (py "product_id") item = Some (VStr product_id)
    /\ field (py "name") item = Some (VStr name)
    /\ field (py "quantity") item = Some (VInt quantity)
    /\ field (py "price") item = Some (VInt price)
    /\ 0 < quantity /\ 0 < price.

(* ================================================================== *)
(** * Properties *)
(* ================================================================== *)

(** ** Strings *)

Lemma pystr_eqb_eq (a b : pystr) : pystr_eqb a b = true <-> a = b.
Proof.
  revert b; induction a as [|x a IH]; intros [|y b]; simpl;
    try (split; [discriminate | congruence]); try tauto.
  rewrite andb_true_iff, N.eqb_eq, IH.
  split; [intros [-> ->]; reflexivity | intros E; injection E; auto].
Qed.

Lemma pystr_eqb_refl (a : pystr) : pystr_eqb a a = true.
Proof. apply pystr_eqb_eq; reflexivity. Qed.

Lemma pystr_eqb_neq (a b : pystr) : pystr_eqb a b = false <-> a <> b.
Proof.
  rewrite <- pystr_eqb_eq.
  destruct (pystr_eqb a b); split; congruence.
Qed.

Lemma startswith_spec (needle hay : pystr) :
  startswith needle hay = true <-> exists post, hay = needle ++ post.
Proof.
  revert hay; induction needle as [|a n IH]; intros hay; simpl.
  - split; [intros _; exists hay; reflexivity | reflexivity].
  - destruct hay as [|b h].
    + split; [discriminate | intros [post E]; discriminate].
    + rewrite andb_true_iff, N.eqb_eq, IH. split.
      * intros [-> [post ->]]. exists post; reflexivity.
      * intros [post E]. injection E as -> ->. split; eauto.
Qed.

Lemma contains_spec (needle hay : pystr) :
  contains needle hay = true
  <-> exists pre post, hay = pre ++ needle ++ post.
Proof.
  induction hay as [|c h IH].
  - simpl. rewrite orb_false_r, startswith_spec. split.
    + intros [post E]. exists [], post; exact E.
    + intros [pre [post E]]. destruct pre; [eauto | discriminate].
  - simpl. rewrite orb_true_iff, startswith_spec, IH. split.
    + intros [[post E] | [pre [post E]]].
      * exists [], post; exact E.
      * exists (c :: pre), post; rewrite E; reflexivity.
    + intros [[|x pre] [post E]].
      * left; exists post; exact E.
      * right. injection E as _ E. exists pre, post; exact E.
Qed.

(** ** Numbers *)

Lemma le_int_not_gt (v : pynum) (k : Z) :
  le_int v k = true -> gt_int v k = false.
Proof.
  unfold le_int, gt_int.
  destruct (cmp_int v k) as [[ | | ]|]; congruence.
Qed.

Lemma gt_int_NInt (z k : Z) : gt_int (NInt z) k = true <-> z > k.
Proof.
  unfold gt_int; simpl. unfold Z.gt.
  destruct (z ?= k); split; congruence.
Qed.

Lemma le_int_NInt (z k : Z) : le_int (NInt z) k = true <-> z <= k.
Proof.
  unfold le_int; simpl. unfold Z.le.
  destruct (z ?= k); split; congruence.
Qed.

(** The comparison of a float with an integer is the comparison of the
    rational it stands for. *)
Lemma float_cmp_int_exact (f : spec_float) (k : Z) (q : Q) :
  float_value f = Some q ->
  float_cmp_int f k = Some (q ?= inject_Z k)%Q.
Proof.
  destruct f as [s| s | | s m e]; simpl; intros E; try discriminate E.
  - injection E as <-. unfold Qcompare. simpl. rewrite Z.mul_1_r. reflexivity.
  - injection E as <-. f_equal.
    set (sm := if s then Z.neg m else Z.pos m).
    destruct (Z.leb_spec 0 e) as [He|He].
    + rewrite <- (Zpower_Qpower 2 e He), <- inject_Z_mult.
      unfold Qcompare. simpl. rewrite !Z.mul_1_r. reflexivity.
    + assert (Hp : 0 < 2 ^ (- e)) by (apply Z.pow_pos_nonneg; lia).
      assert (Hq : (inject_Z sm * 2 ^ e == sm # Z.to_pos (2 ^ (- e)))%Q).
      { rewrite (Qmake_Qdiv sm), (Z2Pos.id _ Hp).
        replace e with (- - e) at 1 by lia.
        rewrite Qpower_opp.
        change (2%Q) with (inject_Z 2).
        rewrite <- (Zpower_Qpower 2 (- e)) by lia.
        reflexivity. }
      rewrite Hq. unfold Qcompare. simpl.
      rewrite Z2Pos.id by exact Hp. rewrite Z.mul_1_r. reflexivity.
Qed.

Example gt_int_nan : gt_int (NFloat S754_nan) 10 = false
                     /\ le_int (NFloat S754_nan) 10 = false.
Proof. split; reflexivity. Qed.

Example gt_int_just_above :
  gt_int (NFloat (float_of_decimal 1000001 5)) 10 = true
  /\ gt_int (NFloat (float_of_int 10)) 10 = false
  /\ gt_int (NFloat (S754_infinity false)) 10 = true.
Proof. repeat split; reflexivity. Qed.

(** ** Discount approval *)

Import Tools.

(** C1. Whatever the discount type and the reason, [approve_discount]
    returns a mapping with status "rejected" and a message that contains
    "10" when the value is greater than 10, and a mapping with status
    "ok" when the value is at most 10; the result does not depend on the
    discount type. *)
Theorem approve_discount_cap :
  forall (discount_type reason : pystr) (value : pynum),
    (gt_int value 10 = true ->
       field (py "status") (approve_discount discount_type value reason)
       = Some (str "rejected")
       /\ exists msg,
            field (py "message")
              (approve_discount discount_type value reason)
            = Some (VStr msg)
            /\ contains (py "10") msg = true)
    /\ (le_int value 10 = true ->
          field (py "status") (approve_discount discount_type value reason)
          = Some (str "ok"))
    /\ (forall discount_type' reason',
          approve_discount discount_type' value reason'
          = approve_discount discount_type value reason).
Proof.
  intros discount_type reason value. repeat split.
  - unfold approve_discount; rewrite H; reflexivity.
  - unfold approve_discount; rewrite H.
    eexists; split; reflexivity.
  - intros H. apply le_int_not_gt in H.
    unfold approve_discount; rewrite H; reflexivity.
Qed.

Lemma approve_discount_cap_witness :
  (gt_int (NFloat (float_of_decimal 105 1)) 10 = true
   /\ field (py "status")
        (approve_discount (py "flat") (NFloat (float_of_decimal 105 1))
           (py "loyalty"))
      = Some (str "rejected"))
  /\ (le_int (NInt 10) 10 = true
      /\ field (py "status")
           (approve_discount (py "percentage") (NInt 10) (py "loyalty"))
         = Some (str "ok")).
Proof.
  split; (split; [reflexivity|]).
  - apply (approve_discount_cap (py "flat") (py "loyalty")
             (NFloat (float_of_decimal 105 1))).
    reflexivity.
  - apply (approve_discount_cap (py "percentage") (py "loyalty") (NInt 10)).
    reflexivity.
Defined.

(** ** Feedback *)

(** C5. For every integer rating from 1 to 5, [collect_feedback]
    returns a mapping with status "success"; for every other integer it
    returns (and does not raise) a mapping with status "error". *)
Theorem collect_feedback_rating :
  forall (rt : runtime) (w : world)
         (customer_id feedback treatment_type : pystr) (rating : Z),
    exists result,
      call_tool rt w
        (CollectFeedback customer_id rating feedback treatment_type)
      = Returns result
      /\ (1 <= rating <= 5 ->
            field (py "status") result = Some (str "success"))
      /\ (rating < 1 \/ 5 < rating ->
            field (py "status") result = Some (str "error")).
Proof.
  intros rt w customer_id feedback treatment_type rating.
  eexists; split; [reflexivity|].
  unfold collect_feedback.
  destruct (rating <? 1) eqn:Hlo; destruct (rating >? 5) eqn:Hhi; simpl;
    rewrite ?Z.ltb_lt, ?Z.ltb_ge, ?Z.gtb_ltb in *;
    rewrite ?Z.ltb_lt, ?Z.ltb_ge in *;
    split; intros; try reflexivity; lia.
Qed.

Lemma collect_feedback_rating_witness :
  (exists result,
     call_tool sample_runtime sample_world
       (CollectFeedback (py "123") 5 (py "매우 만족") (py "보톡스"))
     = Returns result
     /\ field (py "status") result = Some (str "success"))
  /\ (exists result,
        call_tool sample_runtime sample_world
          (CollectFeedback (py "123") 6 (py "") (py "보톡스"))
        = Returns result
        /\ field (py "status") result = Some (str "error")).
Proof.
  split.
  - destruct (collect_feedback_rating sample_runtime sample_world
                (py "123") (py "매우 만족") (py "보톡스") 5)
      as [result [E [Hin _]]].
    exists result; split; [exact E | apply Hin; lia].
  - destruct (collect_feedback_rating sample_runtime sample_world
                (py "123") (py "") (py "보톡스") 6)
      as [result [E [_ Hout]]].
    exists result; split; [exact E | apply Hout; lia].
Defined.

(** ** The customer profile *)

(** C9, as stated, fails: the profile returned for one id is not the
    profile returned for another, because the id supplied is stored in
    it. *)
Lemma get_customer_depends_on_id :
  Entities.get_customer (py "123") <> Entities.get_customer (py "456").
Proof.
  intros E.
  assert (H : option_map Entities.customer_id
                (Entities.get_customer (py "123"))
              = option_map Entities.customer_id
                  (Entities.get_customer (py "456")))
    by (rewrite E; reflexivity).
  vm_compute in H. discriminate H.
Qed.

(** C9, amended. [get_customer] always succeeds (it never returns
    [None]); the profile it returns carries the id supplied in its
    [customer_id] field, and every other field is the same hardcoded
    value whatever the id. *)
Theorem get_customer_profile :
  forall customer_id : pystr,
    exists profile,
      Entities.get_customer customer_id = Some profile
      /\ Entities.customer_id profile = customer_id
      /\ Entities.account_number profile = py "428765091"
      /\ forall other_id,
           Entities.get_customer other_id
           = Some (Entities.with_customer_id other_id profile).
Proof.
  intros customer_id. eexists. split; [reflexivity|].
  split; [reflexivity|]. split; [reflexivity|].
  intros other_id. vm_compute. reflexivity.
Qed.

(** ** Deep links *)

Lemma fold_append_parameter (repr : pyval -> pystr)
    (entries : list (pystr * pyval)) (base_url : pystr) :
  fold_left (append_parameter repr) entries base_url
  = base_url
    ++ concat
         (map (fun entry =>
                 py "&" ++ fst entry ++ py "="
                 ++ format_value repr (snd entry))
              entries).
Proof.
  revert base_url; induction entries as [|e es IH]; intros base_url; simpl.
  - rewrite app_nil_r; reflexivity.
  - rewrite IH. unfold append_parameter.
    repeat rewrite <- app_assoc. reflexivity.
Qed.

Lemma field_deep_link (a b c : pyval) :
  field (py "deep_link")
    (dict [ (py "status", a); (py "deep_link", b); (py "qr_code", c) ])
  = Some b.
Proof. reflexivity. Qed.


(** ** Scheduling *)

Lemma contains_char (c : cp) (s : pystr) :
  contains [c] s = true <-> In c s.
Proof.
  rewrite contains_spec. split.
  - intros [pre [post ->]]. apply in_or_app; right; left; reflexivity.
  - intros H. apply in_split in H. destruct H as [pre [post ->]].
    exists pre, post; reflexivity.
Qed.

Lemma contains_char_false (c : cp) (s : pystr) :
  contains [c] s = false <-> ~ In c s.
Proof.
  rewrite <- contains_char.
  destruct (contains [c] s); split; congruence.
Qed.

Lemma split_no_separator (sep : cp) (s : pystr) :
  ~ In sep s -> split sep s = [s].
Proof.
  induction s as [|c r IH]; intros H; simpl; [reflexivity|].
  destruct (N.eqb_spec c sep) as [->|Hne].
  - exfalso; apply H; left; reflexivity.
  - rewrite IH; [reflexivity|]. intros Hin; apply H; right; exact Hin.
Qed.

Lemma split_at_first_separator (sep : cp) (a b : pystr) :
  ~ In sep a -> split sep (a ++ sep :: b) = a :: split sep b.
Proof.
  induction a as [|c r IH]; intros H; simpl.
  - rewrite N.eqb_refl; reflexivity.
  - destruct (N.eqb_spec c sep) as [->|Hne].
    + exfalso; apply H; left; reflexivity.
    + rewrite IH; [reflexivity|]. intros Hin; apply H; right; exact Hin.
Qed.

Lemma split_nonempty (sep : cp) (s : pystr) :
  exists first rest, split sep s = first :: rest.
Proof.
  induction s as [|c r [first [rest IH]]]; simpl; [eauto|].
  destruct (c =? sep)%N; [eauto|]. rewrite IH; eauto.
Qed.

(** C7. Every call of [schedule_planting_service] returns status
    "success", echoes [date], [time_range] (as [time]) and [details] (as
    [treatment]) unchanged, and sets [confirmation_time] to
    ["<date> <start>:00"], where [<start>] is the part of [time_range]
    before its first ["-"], or all of [time_range] when it has none. *)
Theorem schedule_planting_service_confirmation :
  forall (rt : runtime) (w : world)
         (customer_id date time_range details : pystr),
    exists start appointment_id,
      call_tool rt w
        (SchedulePlantingService customer_id date time_range details)
      = Returns
          (dict [ (py "status", str "success");
                  (py "appointment_id", VStr appointment_id);
                  (py "date", VStr date);
                  (py "time", VStr time_range);
                  (py "treatment", VStr details);
                  (py "confirmation_time",
                   VStr (date ++ py " " ++ start ++ py ":00"));
                  (py "location", str "엘리트 뷰티 클리닉 강남점") ])
      /\ (forall before after,
            contains (py "-") before = false ->
            time_range = before ++ py "-" ++ after ->
            start = before)
      /\ (contains (py "-") time_range = false -> start = time_range).
Proof.
  intros rt w customer_id date time_range details.
  destruct (split_nonempty 45%N time_range) as [first [rest E]].
  exists first, (Uuid.uuid4_str (urandom16 w)). split; [|split].
  - simpl. unfold schedule_planting_service. rewrite E. reflexivity.
  - intros before after Hno ->.
    change (py "-") with [45%N] in *.
    apply contains_char_false in Hno.
    simpl app in E. rewrite (split_at_first_separator _ _ _ Hno) in E.
    congruence.
  - intros Hno. change (py "-") with [45%N] in Hno.
    apply contains_char_false in Hno.
    rewrite (split_no_separator _ _ Hno) in E. congruence.
Qed.

Lemma schedule_planting_service_confirmation_witness :
  contains (py "-") (py "9") = false
  /\ py "9-12" = py "9" ++ py "-" ++ py "12"
  /\ exists result,
       call_tool sample_runtime sample_world
         (SchedulePlantingService (py "123") (py "2024-07-29") (py "9-12")
            (py "x"))
       = Returns result
       /\ field (py "status") result = Some (str "success")
       /\ field (py "date") result = Some (str "2024-07-29")
       /\ field (py "time") result = Some (str "9-12")
       /\ field (py "confirmation_time") result
          = Some (str "2024-07-29 9:00").
Proof.
  split; [reflexivity|]. split; [reflexivity|].
  destruct (schedule_planting_service_confirmation sample_runtime
              sample_world (py "123") (py "2024-07-29") (py "9-12") (py "x"))
    as [start [appointment_id [E [Hsplit _]]]].
  rewrite (Hsplit (py "9") (py "12") eq_refl eq_refl) in E.
  eexists. split; [exact E|].
  repeat split.
Defined.

(** ** Recommendations *)

Section LowerFacts.

Variable db : Unicode.database.

(** Lowering a string lowers what follows a prefix in the context of
    that prefix. *)
Lemma lower_from_app (pre rest before : pystr) :
  exists lowered_pre,
    Unicode.lower_from db before (pre ++ rest)
    = lowered_pre ++ Unicode.lower_from db (rev pre ++ before) rest.
Proof.
  revert before; induction pre as [|c pre IH]; intros before.
  - exists []; reflexivity.
  - destruct (IH (c :: before)) as [lowered E].
    exists (Unicode.lower_char db before c (pre ++ rest) ++ lowered).
    simpl. rewrite E, <- !app_assoc. reflexivity.
Qed.

Hypothesis Huncased : Unicode.hangul_uncased db.

Lemma lower_char_hangul (before after : pystr) (c : cp) :
  Unicode.hangul_syllable c = true ->
  Unicode.lower_char db before c after = [c].
Proof.
  intros H. unfold Unicode.lower_char.
  destruct (N.eqb_spec c 931) as [->|_]; [discriminate H|].
  apply Huncased; exact H.
Qed.

Lemma lower_from_hangul (keyword rest before : pystr) :
  forallb Unicode.hangul_syllable keyword = true ->
  Unicode.lower_from db before (keyword ++ rest)
  = keyword ++ Unicode.lower_from db (rev keyword ++ before) rest.
Proof.
  revert before; induction keyword as [|c k IH]; intros before H.
  - reflexivity.
  - simpl in H. apply andb_true_iff in H. destruct H as [Hc Hk].
    simpl. rewrite (lower_char_hangul _ _ _ Hc), (IH _ Hk), <- app_assoc.
    reflexivity.
Qed.

(** A keyword written in Hangul that occurs in a string still occurs in
    the lowered string. *)
Lemma occurs_in_lower (keyword s : pystr) :
  forallb Unicode.hangul_syllable keyword = true ->
  occurs_in keyword s -> occurs_ignoring_case db keyword s.
Proof.
  intros Hk [pre [post ->]].
  unfold occurs_ignoring_case, Unicode.lower.
  destruct (lower_from_app pre (keyword ++ post) []) as [lowered ->].
  rewrite (lower_from_hangul _ _ _ Hk).
  eexists lowered, _. reflexivity.
Qed.

Lemma lower_hangul (keyword : pystr) :
  forallb Unicode.hangul_syllable keyword = true ->
  Unicode.lower db keyword = keyword.
Proof.
  intros Hk. unfold Unicode.lower.
  rewrite <- (app_nil_r keyword) at 1.
  rewrite (lower_from_hangul _ _ _ Hk). apply app_nil_r.
Qed.

End LowerFacts.

Lemma basic_latin_hangul_uncased :
  Unicode.hangul_uncased Unicode.basic_latin.
Proof.
  intros c H. unfold Unicode.hangul_syllable in H.
  apply andb_true_iff in H. destruct H as [Hlo _].
  apply N.leb_le in Hlo. simpl.
  destruct (N.leb_spec c 90) as [Hle|_]; [lia|].
  rewrite andb_false_r. reflexivity.
Qed.

Lemma occurs_in_self (s : pystr) : occurs_in s s.
Proof. exists [], []. rewrite app_nil_r. reflexivity. Qed.

(** C6. [get_product_recommendations] returns on every input, and what
    it returns is one of three fixed lists: the wrinkle list when the
    concern contains the wrinkle keyword, case ignored; otherwise the
    pigmentation list when it contains the pigmentation keyword, case
    ignored; otherwise the default list, which has two entries.  The
    three lists differ, so the result is never a blend.  The keywords
    are written in Hangul, which has no case: a concern that contains
    one as it is written is matched, and the two examples of the
    specification select the wrinkle and the pigmentation list. *)
Theorem get_product_recommendations_selection :
  forall (rt : runtime) (w : world) (skin_concern customer_id : pystr),
    exists result,
      call_tool rt w (GetProductRecommendations skin_concern customer_id)
      = Returns result
      /\ (occurs_ignoring_case (unicode_db rt) (py "주름") skin_concern ->
            result = wrinkle_recommendations)
      /\ (~ occurs_ignoring_case (unicode_db rt) (py "주름") skin_concern ->
            occurs_ignoring_case (unicode_db rt) (py "색소침착") skin_concern ->
            result = pigmentation_recommendations)
      /\ (~ occurs_ignoring_case (unicode_db rt) (py "주름") skin_concern ->
            ~ occurs_ignoring_case (unicode_db rt) (py "색소침착")
                skin_concern ->
            result = default_recommendations)
      /\ (result = wrinkle_recommendations
            \/ result = pigmentation_recommendations
            \/ result = default_recommendations)
      /\ (wrinkle_recommendations <> pigmentation_recommendations
            /\ wrinkle_recommendations <> default_recommendations
            /\ pigmentation_recommendations <> default_recommendations)
      /\ (exists first second,
             default_recommendations
             = dict [ (py "recommendations", VList [first; second]) ])
      /\ (Unicode.hangul_uncased (unicode_db rt) ->
            (occurs_in (py "주름") skin_concern ->
               result = wrinkle_recommendations)
            /\ get_product_recommendations (unicode_db rt) (py "주름")
                 customer_id
               = wrinkle_recommendations
            /\ get_product_recommendations (unicode_db rt) (py "색소침착")
                 customer_id
               = pigmentation_recommendations).
Proof.
  intros rt w skin_concern customer_id.
  eexists; split; [reflexivity|].
  unfold get_product_recommendations, occurs_ignoring_case, occurs_in.
  rewrite <- !contains_spec.
  assert (Hw : forall s,
             contains (py "주름") (Unicode.lower (unicode_db rt) s) = true ->
             (if contains (py "주름") (Unicode.lower (unicode_db rt) s)
              then wrinkle_recommendations
              else if contains (py "색소침착")
                        (Unicode.lower (unicode_db rt) s)
                   then pigmentation_recommendations
                   else default_recommendations)
             = wrinkle_recommendations)
    by (intros s ->; reflexivity).
  repeat apply conj.
  - apply Hw.
  - intros H1 H2. apply not_true_is_false in H1. rewrite H1, H2. reflexivity.
  - intros H1 H2. apply not_true_is_false in H1, H2. rewrite H1, H2.
    reflexivity.
  - destruct (contains (py "주름") _); [auto|].
    destruct (contains (py "색소침착") _); auto.
  - intros E; vm_compute in E; discriminate E.
  - intros E; vm_compute in E; discriminate E.
  - intros E; vm_compute in E; discriminate E.
  - eexists _, _; reflexivity.
  - intros Huncased. repeat apply conj.
    + intros H. apply Hw. apply contains_spec.
      apply (occurs_in_lower _ Huncased); [reflexivity|].
      apply contains_spec; exact H.
    + rewrite (lower_hangul _ Huncased) by reflexivity. reflexivity.
    + rewrite (lower_hangul _ Huncased) by reflexivity. reflexivity.
Qed.

Lemma get_product_recommendations_selection_witness :
  Unicode.hangul_uncased (unicode_db sample_runtime)
  /\ occurs_in (py "주름") (py "눈가 주름 고민")
  /\ exists result,
       call_tool sample_runtime sample_world
         (GetProductRecommendations (py "눈가 주름 고민") (py "123"))
       = Returns result
       /\ result = wrinkle_recommendations.
Proof.
  assert (Hdb : Unicode.hangul_uncased (unicode_db sample_runtime))
    by exact basic_latin_hangul_uncased.
  assert (Hocc : occurs_in (py "주름") (py "눈가 주름 고민"))
    by (exists (py "눈가 "), (py " 고민"); reflexivity).
  split; [exact Hdb|]. split; [exact Hocc|].
  destruct (get_product_recommendations_selection sample_runtime sample_world
              (py "눈가 주름 고민") (py "123"))
    as [result [E [_ [_ [_ [_ [_ [_ Hplain]]]]]]]].
  exists result. split; [exact E|].
  apply (proj1 (Hplain Hdb)); exact Hocc.
Defined.

(** ** The calendar *)

Import DateTime.

Lemma all_from_spec (f : Z -> bool) (bits : nat) :
  forall lo, all_from bits lo f = true ->
  forall r, lo <= r < lo + 2 ^ Z.of_nat bits -> f r = true.
Proof.
  induction bits as [|b IH]; intros lo H r Hr.
  - simpl in *. replace r with lo by lia. exact H.
  - cbn [all_from] in H. apply andb_true_iff in H. destruct H as [H1 H2].
    rewrite Nat2Z.inj_succ, Z.pow_succ_r in Hr by lia.
    destruct (Z_lt_le_dec r (lo + 2 ^ Z.of_nat b)).
    + apply (IH lo H1); lia.
    + apply (IH _ H2); lia.
Qed.

Lemma first_cycle_checked : all_from 18 0 cycle_day_ok = true.
Proof. vm_cast_no_check (eq_refl true). Qed.

Lemma is_leap_period (y q : Z) : is_leap (y + 400 * q) = is_leap y.
Proof.
  unfold is_leap.
  replace ((y + 400 * q) mod 4) with (y mod 4)
    by (replace (y + 400 * q) with (y + (100 * q) * 4) by ring;
        rewrite Z_mod_plus_full; reflexivity).
  replace ((y + 400 * q) mod 100) with (y mod 100)
    by (replace (y + 400 * q) with (y + (4 * q) * 100) by ring;
        rewrite Z_mod_plus_full; reflexivity).
  replace ((y + 400 * q) mod 400) with (y mod 400)
    by (replace (y + 400 * q) with (y + q * 400) by ring;
        rewrite Z_mod_plus_full; reflexivity).
  reflexivity.
Qed.

Lemma days_before_year_period (y q : Z) :
  days_before_year (y + 400 * q) = days_before_year y + DI400Y * q.
Proof.
  unfold days_before_year, DI400Y. cbv zeta.
  replace ((y + 400 * q - 1) / 4) with ((y - 1) / 4 + 100 * q)
    by (replace (y + 400 * q - 1) with (y - 1 + (100 * q) * 4) by ring;
        rewrite Z.div_add by lia; reflexivity).
  replace ((y + 400 * q - 1) / 100) with ((y - 1) / 100 + 4 * q)
    by (replace (y + 400 * q - 1) with (y - 1 + (4 * q) * 100) by ring;
        rewrite Z.div_add by lia; reflexivity).
  replace ((y + 400 * q - 1) / 400) with ((y - 1) / 400 + q)
    by (replace (y + 400 * q - 1) with (y - 1 + q * 400) by ring;
        rewrite Z.div_add by lia; reflexivity).
  ring.
Qed.

Lemma ymd2ord_period (y m d q : Z) :
  ymd2ord (y + 400 * q) m d = ymd2ord y m d + DI400Y * q.
Proof.
  unfold ymd2ord, days_before_month.
  rewrite days_before_year_period, is_leap_period. ring.
Qed.

Lemma days_in_month_period (y m q : Z) :
  days_in_month (y + 400 * q) m = days_in_month y m.
Proof. unfold days_in_month. rewrite is_leap_period. reflexivity. Qed.

Lemma ord2ymd_period (n : Z) :
  ord2ymd n
  = shift_years (400 * ((n - 1) / DI400Y))
      (ord2ymd ((n - 1) mod DI400Y + 1)).
Proof.
  assert (Hr : 0 <= (n - 1) mod DI400Y < DI400Y)
    by (apply Z.mod_pos_bound; reflexivity).
  unfold ord2ymd. cbv zeta.
  replace ((n - 1) mod DI400Y + 1 - 1) with ((n - 1) mod DI400Y) by ring.
  rewrite (Z.div_small ((n - 1) mod DI400Y) DI400Y) by exact Hr.
  rewrite (Z.mod_small ((n - 1) mod DI400Y) DI400Y) by exact Hr.
  set (q := (n - 1) / DI400Y). set (r := (n - 1) mod DI400Y).
  destruct ((r mod DI100Y mod DI4Y / 365 =? 4) || (r / DI100Y =? 4)).
  - unfold shift_years. f_equal. f_equal. ring.
  - match goal with
    | |- context [if ?c then _ else _] => destruct c
    end; unfold shift_years; f_equal; f_equal; ring.
Qed.

Lemma ord2ymd_valid (n : Z) :
  1 <= n <= MAXORDINAL ->
  exists y m d,
    ord2ymd n = (y, m, d)
    /\ 1 <= y <= 9999 /\ 1 <= m <= 12 /\ 1 <= d <= days_in_month y m
    /\ ymd2ord y m d = n.
Proof.
  intros Hn.
  assert (Hr : 0 <= (n - 1) mod DI400Y < DI400Y)
    by (apply Z.mod_pos_bound; reflexivity).
  assert (Hq : 0 <= (n - 1) / DI400Y <= 24).
  { split.
    - apply Z.div_pos; [lia | reflexivity].
    - apply Z.lt_succ_r. apply Z.div_lt_upper_bound; [reflexivity|].
      unfold MAXORDINAL, DI400Y in *. lia. }
  assert (Hn' : n = DI400Y * ((n - 1) / DI400Y) + (n - 1) mod DI400Y + 1).
  { pose proof (Z.div_mod (n - 1) DI400Y ltac:(discriminate)). lia. }
  pose proof (all_from_spec cycle_day_ok 18 0 first_cycle_checked
                ((n - 1) mod DI400Y)) as Hok.
  rewrite ord2ymd_period.
  set (q := (n - 1) / DI400Y) in *. set (r := (n - 1) mod DI400Y) in *.
  unfold cycle_day_ok in Hok.
  destruct (ord2ymd (r + 1)) as [[y0 m] d].
  assert (Hlt : (DI400Y <=? r) = false) by (apply Z.leb_gt; lia).
  rewrite Hlt in Hok. simpl orb in Hok.
  specialize (Hok ltac:(unfold DI400Y in *; simpl; lia)).
  repeat (apply andb_true_iff in Hok; destruct Hok as [Hok ?]).
  rewrite ?Z.leb_le, ?Z.eqb_eq in *.
  exists (y0 + 400 * q), m, d. unfold shift_years.
  split; [reflexivity|].
  rewrite days_in_month_period, ymd2ord_period.
  assert (Hy : y0 + 400 * q <= 9999).
  { destruct (Z.eq_dec (y0 + 400 * q) 10000) as [E|]; [|lia].
    exfalso.
    assert (Hq24 : q = 24) by lia. assert (Hy0 : y0 = 400) by lia.
    subst y0. rewrite Hq24 in *.
    assert (Hmax : ymd2ord 400 m d + DI400Y * 24 <= MAXORDINAL) by lia.
    assert (Hdbm : 0 <= days_before_month 400 m).
    { assert (Hm : m = 1 \/ m = 2 \/ m = 3 \/ m = 4 \/ m = 5 \/ m = 6 \/
                   m = 7 \/ m = 8 \/ m = 9 \/ m = 10 \/ m = 11 \/ m = 12)
        by lia.
      repeat destruct Hm as [-> | Hm]; try subst m; vm_compute; discriminate. }
    unfold ymd2ord in Hmax.
    change (days_before_year 400) with 145731 in Hmax.
    unfold DI400Y, MAXORDINAL in Hmax. lia. }
  repeat split; try lia.
Qed.

Lemma days_before_month_bounds (y m : Z) :
  1 <= m <= 12 -> 0 <= days_before_month y m <= 335.
Proof.
  intros Hm.
  assert (H : m = 1 \/ m = 2 \/ m = 3 \/ m = 4 \/ m = 5 \/ m = 6 \/
              m = 7 \/ m = 8 \/ m = 9 \/ m = 10 \/ m = 11 \/ m = 12) by lia.
  unfold days_before_month.
  repeat destruct H as [-> | H]; try subst m;
    destruct (is_leap y); vm_compute; split; discriminate.
Qed.

Lemma days_in_month_bounds (y m : Z) :
  1 <= m <= 12 -> 28 <= days_in_month y m <= 31.
Proof.
  intros Hm.
  assert (H : m = 1 \/ m = 2 \/ m = 3 \/ m = 4 \/ m = 5 \/ m = 6 \/
              m = 7 \/ m = 8 \/ m = 9 \/ m = 10 \/ m = 11 \/ m = 12) by lia.
  unfold days_in_month.
  repeat destruct H as [-> | H]; try subst m;
    destruct (is_leap y); vm_compute; split; discriminate.
Qed.

Lemma days_before_year_bounds (y : Z) :
  1 <= y <= 9999 -> 0 <= days_before_year y <= 3659634.
Proof.
  intros Hy. unfold days_before_year. cbv zeta.
  pose proof (Z.div_mod (y - 1) 4 ltac:(discriminate)).
  pose proof (Z.mod_pos_bound (y - 1) 4 ltac:(reflexivity)).
  pose proof (Z.div_mod (y - 1) 100 ltac:(discriminate)).
  pose proof (Z.mod_pos_bound (y - 1) 100 ltac:(reflexivity)).
  pose proof (Z.div_mod (y - 1) 400 ltac:(discriminate)).
  pose proof (Z.mod_pos_bound (y - 1) 400 ltac:(reflexivity)).
  lia.
Qed.

Lemma toordinal_bounds (dt : datetime) :
  valid dt -> 1 <= toordinal dt <= 3660000.
Proof.
  intros (Hy & Hm & Hd & _).
  pose proof (days_before_year_bounds _ Hy).
  pose proof (days_before_month_bounds (year dt) _ Hm).
  pose proof (days_in_month_bounds (year dt) _ Hm).
  unfold toordinal, ymd2ord. lia.
Qed.

Lemma padded_four_checked : all_from 14 0 (padded_ok 4) = true.
Proof. vm_cast_no_check (eq_refl true). Qed.

Lemma padded_two_checked : all_from 7 0 (padded_ok 2) = true.
Proof. vm_cast_no_check (eq_refl true). Qed.

Lemma decimal_pad_four (z : Z) :
  0 <= z <= 9999 ->
  decimal_pad 4 z = [digit_at z 3; digit_at z 2; digit_at z 1; digit_at z 0].
Proof.
  intros Hz.
  pose proof (all_from_spec (padded_ok 4) 14 0 padded_four_checked z
                ltac:(simpl; lia)) as H.
  unfold padded_ok in H.
  assert (E : (10 ^ Z.of_nat 4 <=? z) = false) by (apply Z.leb_gt; simpl; lia).
  rewrite E in H. apply pystr_eqb_eq in H. exact H.
Qed.

Lemma decimal_pad_two (z : Z) :
  0 <= z <= 99 -> decimal_pad 2 z = [digit_at z 1; digit_at z 0].
Proof.
  intros Hz.
  pose proof (all_from_spec (padded_ok 2) 7 0 padded_two_checked z
                ltac:(simpl; lia)) as H.
  unfold padded_ok in H.
  assert (E : (10 ^ Z.of_nat 2 <=? z) = false) by (apply Z.leb_gt; simpl; lia).
  rewrite E in H. apply pystr_eqb_eq in H. exact H.
Qed.

Lemma strftime_Ymd_shape (dt : datetime) :
  valid dt -> strftime_Ymd dt = yyyy_mm_dd (year dt) (month dt) (day dt).
Proof.
  intros (Hy & Hm & Hd & _).
  pose proof (days_in_month_bounds (year dt) _ Hm).
  unfold strftime_Ymd, yyyy_mm_dd.
  rewrite decimal_pad_four by lia.
  rewrite !decimal_pad_two by lia.
  reflexivity.
Qed.

(** ** QR vouchers *)

Lemma qr_voucher_in_range (w : world) (days : Z) :
  valid (now w) -> representable (now w) days ->
  qr_success w days (qr_voucher w days).
Proof.
  intros Hvalid Hrep. unfold representable in Hrep.
  pose proof (toordinal_bounds _ Hvalid) as Hord.
  destruct (ord2ymd_valid _ Hrep) as (y & m & d & E & Hy & Hm & Hd & Hback).
  destruct Hvalid as (_ & _ & _ & Hh & Hmi & Hs & Hus).
  unfold qr_voucher, timedelta_days, add_days.
  assert (Habs : (Z.abs days >? 999999999) = false).
  { rewrite Z.gtb_ltb. apply Z.ltb_ge. unfold MAXORDINAL in Hrep. lia. }
  rewrite Habs. cbn [bind].
  assert (Hin : (0 <? toordinal (now w) + days)
                && (toordinal (now w) + days <=? MAXORDINAL) = true).
  { apply andb_true_iff. split; [apply Z.ltb_lt | apply Z.leb_le]; lia. }
  rewrite Hin, E. cbn [bind].
  eexists. split; [|split; [|rewrite strftime_Ymd_shape; [reflexivity|]]].
  - repeat split; cbn [year month day hour minute second microsecond]; lia.
  - exact Hback.
  - repeat split; cbn [year month day hour minute second microsecond]; lia.
Qed.



Lemma generate_qr_code_accepted (w : world) (customer_id : pystr)
    (v : pynum) (t : pystr) (days : Z) :
  refuses (GenerateQrCode customer_id v t days) = false ->
  generate_qr_code w customer_id v t days = qr_voucher w days.
Proof.
  unfold refuses, generate_qr_code.
  destruct (pystr_eqb t (py "")), (pystr_eqb t (py "percentage")),
    (pystr_eqb t (py "fixed")), (gt_int v 10), (gt_int v 20);
    cbn [orb andb]; intros H; try discriminate H; reflexivity.
Qed.

Lemma refuses_qr_iff (customer_id : pystr) (v : pynum) (t : pystr)
    (days : Z) :
  refuses (GenerateQrCode customer_id v t days) = true
  <-> over_percentage_cap t v \/ over_fixed_cap t v.
Proof.
  unfold refuses, over_percentage_cap, over_fixed_cap.
  rewrite orb_true_iff, !andb_true_iff, orb_true_iff, !pystr_eqb_eq.
  tauto.
Qed.


Lemma sample_now_valid : valid (now sample_world).
Proof. repeat split; vm_compute; discriminate. Qed.







(** ** Every tool at the boundary *)





(** ** Examples from the source *)

(** The docstring of [generate_qr_code]: thirty days after 2024-07-25. *)
Example generate_qr_code_docstring :
  generate_qr_code sample_world (py "123") (NFloat (float_of_int 10))
    (py "percentage") 30
  = Returns
      (dict [ (py "status", str "success");
              (py "qr_code_data", str "MOCK_QR_CODE_DATA");
              (py "expiration_date", str "2024-08-24") ]).
Proof. reflexivity. Qed.

Example generate_qr_code_refusals :
  generate_qr_code sample_world (py "123") (NInt 11) (py "") 30
  = Returns
      (str "cannot generate a QR code for this amount, must be 10% or less")
  /\ generate_qr_code sample_world (py "123") (NInt 21) (py "fixed") 30
     = Returns
         (str "cannot generate a QR code for this amount, must be 20 or less")
  /\ generate_qr_code sample_world (py "123") (NInt 10) (py "percentage")
       3000000
     = Raises OverflowError
  /\ generate_qr_code sample_world (py "123") (NInt 10) (py "percentage")
       (-739092)
     = Raises OverflowError.
Proof. repeat split; reflexivity. Qed.

Example calendar_ends :
  ord2ymd 1 = (1, 1, 1) /\ ord2ymd MAXORDINAL = (9999, 12, 31)
  /\ ymd2ord 9999 12 31 = MAXORDINAL
  /\ toordinal sample_now = 739092.
Proof. repeat split; reflexivity. Qed.

Example uuid4_of_sample_bytes :
  Uuid.uuid4_str (urandom16 sample_world)
  = py "12345678-9abc-4ef0-8123-456789abcdef".
Proof. reflexivity. Qed.

Example isoformat_of_sample_now :
  isoformat sample_now = py "2024-07-25T09:30:00".
Proof. reflexivity. Qed.

Example lower_basic_latin :
  Unicode.lower Unicode.basic_latin (py "Deep WRINKLE 주름")
  = py "deep wrinkle 주름".
Proof. reflexivity. Qed.

(* ================================================================== *)
(** * Further properties of the tools *)
(* ================================================================== *)

(** ** Reminders *)

(** X1. [send_appointment_reminder] never reports an error: whatever
    the reminder type, also when it is omitted (then "24h"), the status
    is "success" and the appointment id and the type are echoed.  The
    types "24h", "2h" and "30min" get their own message; the generic
    message is returned exactly for every other type. *)
Theorem send_appointment_reminder_fallback :
  forall (customer_id appointment_id : pystr) (reminder_type : option pystr),
    let effective := or_default reminder_type (py "24h") in
    let result :=
      send_appointment_reminder customer_id appointment_id reminder_type in
    field (py "status") result = Some (str "success")
    /\ field (py "appointment_id") result = Some (VStr appointment_id)
    /\ field (py "reminder_type") result = Some (VStr effective)
    /\ (effective = py "24h" ->
        field (py "message") result
        = Some (str "24시간 전 예약 알림을 발송했습니다."))
    /\ (effective = py "2h" ->
        field (py "message") result
        = Some (str "2시간 전 예약 알림을 발송했습니다."))
    /\ (effective = py "30min" ->
        field (py "message") result
        = Some (str "30분 전 예약 알림을 발송했습니다."))
    /\ (field (py "message") result = Some generic_reminder
        <-> effective <> py "24h" /\ effective <> py "2h"
            /\ effective <> py "30min").
Proof.
  intros customer_id appointment_id reminder_type effective result.
  subst result. unfold send_appointment_reminder. fold effective.
  assert (Hm : forall a b c d,
             field (py "message")
               (dict [ (py "status", a); (py "message", b);
                       (py "appointment_id", c); (py "reminder_type", d) ])
             = Some b) by reflexivity.
  rewrite Hm.
  repeat apply conj; try reflexivity.
  - intros ->. reflexivity.
  - intros ->. reflexivity.
  - intros ->. reflexivity.
  - unfold reminder_messages. cbn [lookup].
    destruct (pystr_eqb effective (py "24h")) eqn:E1.
    { apply pystr_eqb_eq in E1. intros H. vm_compute in H. discriminate H. }
    destruct (pystr_eqb effective (py "2h")) eqn:E2.
    { apply pystr_eqb_eq in E2. intros H. vm_compute in H. discriminate H. }
    destruct (pystr_eqb effective (py "30min")) eqn:E3.
    { apply pystr_eqb_eq in E3. intros H. vm_compute in H. discriminate H. }
    intros _. apply pystr_eqb_neq in E1, E2, E3. auto.
  - intros (H1 & H2 & H3).
    apply pystr_eqb_neq in H1, H2, H3.
    unfold reminder_messages. cbn [lookup]. rewrite H1, H2, H3. reflexivity.
Qed.

(** ** The two discount guardrails together *)

Lemma gt_int_threshold (v : pynum) (low high : Z) :
  low <= high -> gt_int v high = true -> gt_int v low = true.
Proof.
  intros Hle. unfold gt_int.
  destruct v as [z | f]; cbn [cmp_int].
  - destruct (Z.compare_spec z high); try discriminate.
    intros _. destruct (Z.compare_spec z low); try reflexivity; lia.
  - destruct f as [s | s | | s m e]; cbn [float_cmp_int].
    + destruct (Z.compare_spec 0 high); try discriminate.
      intros _. destruct (Z.compare_spec 0 low); try reflexivity; lia.
    + destruct s; [discriminate | reflexivity].
    + discriminate.
    + set (sm := if s then Z.neg m else Z.pos m).
      destruct (0 <=? e).
      * destruct (Z.compare_spec (sm * 2 ^ e) high); try discriminate.
        intros _.
        destruct (Z.compare_spec (sm * 2 ^ e) low); try reflexivity; lia.
      * assert (Hp : 0 <= 2 ^ (- e)) by apply Z.pow_nonneg, Z.le_0_2.
        destruct (Z.compare_spec sm (high * 2 ^ (- e))); try discriminate.
        intros _.
        destruct (Z.compare_spec sm (low * 2 ^ (- e))); try reflexivity; nia.
Qed.

Lemma approve_discount_ok_iff (t reason : pystr) (v : pynum) :
  field (py "status") (approve_discount t v reason) = Some (str "ok")
  <-> gt_int v 10 = false.
Proof.
  unfold approve_discount. destruct (gt_int v 10); split; intros H.
  - vm_compute in H. discriminate H.
  - discriminate H.
  - reflexivity.
  - reflexivity.
Qed.

(** X2. The two guardrails together: a value that [approve_discount]
    approves passes the guardrails of [generate_qr_code] under every
    discount type.  The converse fails: a value above 10 and at most 20
    is rejected by [approve_discount] and still passes
    [generate_qr_code] as a "fixed" discount. *)
Theorem approved_discount_passes_qr_guardrails :
  forall (w : world) (customer_id reason : pystr) (value : pynum)
         (approved_type qr_type : pystr) (expiration_days : Z),
    (field (py "status") (approve_discount approved_type value reason)
     = Some (str "ok") ->
     generate_qr_code w customer_id value qr_type expiration_days
     = qr_voucher w expiration_days)
    /\ (gt_int value 10 = true -> gt_int value 20 = false ->
        field (py "status") (approve_discount approved_type value reason)
        = Some (str "rejected")
        /\ generate_qr_code w customer_id value (py "fixed") expiration_days
           = qr_voucher w expiration_days).
Proof.
  intros w customer_id reason value approved_type qr_type days. split.
  - intros H. apply approve_discount_ok_iff in H.
    apply generate_qr_code_accepted. cbn [refuses].
    rewrite H, andb_false_r. cbn [orb].
    destruct (gt_int value 20) eqn:E; [|apply andb_false_r].
    apply (gt_int_threshold _ 10 20) in E; [congruence | lia].
  - intros H10 H20. split.
    + unfold approve_discount. rewrite H10. reflexivity.
    + apply generate_qr_code_accepted. cbn [refuses].
      rewrite H20, andb_false_r.
      change (pystr_eqb (py "fixed") (py "")) with false.
      change (pystr_eqb (py "fixed") (py "percentage")) with false.
      reflexivity.
Qed.

Lemma approved_discount_passes_qr_guardrails_witness :
  field (py "status")
    (approve_discount (py "percentage") (NInt 10) (py "loyalty"))
  = Some (str "ok")
  /\ generate_qr_code sample_world (py "123") (NInt 10) (py "percentage") 30
     = qr_voucher sample_world 30
  /\ gt_int (NInt 15) 10 = true /\ gt_int (NInt 15) 20 = false
  /\ generate_qr_code sample_world (py "123") (NInt 15) (py "fixed") 30
     = qr_voucher sample_world 30.
Proof.
  split; [reflexivity|]. split.
  - apply (proj1 (approved_discount_passes_qr_guardrails sample_world
                    (py "123") (py "loyalty") (NInt 10) (py "percentage")
                    (py "percentage") 30)).
    reflexivity.
  - split; [reflexivity|]. split; [reflexivity|].
    apply (proj2 (approved_discount_passes_qr_guardrails sample_world
                    (py "123") (py "loyalty") (NInt 15) (py "percentage")
                    (py "percentage") 30)); reflexivity.
Defined.

(** ** Feedback records *)

(** X3. The result of [collect_feedback] carries a rating only when
    it is the rating given and lies between 1 and 5, together with the
    feedback and the treatment; the rating is absent exactly when the
    rating given is out of range, and then feedback and treatment are
    absent too. *)
Theorem collect_feedback_stored_rating :
  forall (customer_id feedback treatment_type : pystr) (rating : Z),
    let result :=
      collect_feedback customer_id rating feedback treatment_type in
    (forall stored,
       field (py "rating") result = Some stored ->
       stored = VInt rating /\ 1 <= rating <= 5
       /\ field (py "feedback") result = Some (VStr feedback)
       /\ field (py "treatment") result = Some (VStr treatment_type))
    /\ (field (py "rating") result = None <-> rating < 1 \/ 5 < rating)
    /\ (field (py "rating") result = None ->
        field (py "feedback") result = None
        /\ field (py "treatment") result = None).
Proof.
  intros customer_id feedback treatment_type rating result. subst result.
  unfold collect_feedback. rewrite Z.gtb_ltb.
  destruct (Z.ltb_spec rating 1) as [Hlo|Hlo];
    [|destruct (Z.ltb_spec 5 rating) as [Hhi|Hhi]]; cbn [orb].
  - split; [|split].
    + intros stored H. vm_compute in H. discriminate H.
    + split; [intros _; left; exact Hlo | reflexivity].
    + intros _. split; reflexivity.
  - split; [|split].
    + intros stored H. vm_compute in H. discriminate H.
    + split; [intros _; right; exact Hhi | reflexivity].
    + intros _. split; reflexivity.
  - split; [|split].
    + intros stored H. vm_compute in H. injection H as <-.
      repeat split; lia.
    + split; [intros H; vm_compute in H; discriminate H | lia].
    + intros H. vm_compute in H. discriminate H.
Qed.

(** ** The shape of recommendations *)

Lemma treatment_well_formed (product_id name description : String.string)
    (price : Z) :
  0 < price ->
  existsb Unicode.hangul_syllable (py name) = true ->
  well_formed_recommendation (treatment product_id name description price).
Proof.
  intros Hp Hn. exists (py product_id), (py name), (py description), price.
  repeat split; assumption.
Qed.

(** X4. Whatever the concern and the customer, the result of
    [get_product_recommendations] is a mapping with one key,
    "recommendations", holding two entries; each has a product id, a
    name written with Hangul, a description and a positive integer
    price, and the two product ids differ. *)
Theorem recommendations_well_formed :
  forall (db : Unicode.database) (skin_concern customer_id : pystr),
    exists first second,
      get_product_recommendations db skin_concern customer_id
      = dict [ (py "recommendations", VList [first; second]) ]
      /\ well_formed_recommendation first
      /\ well_formed_recommendation second
      /\ field (py "product_id") first <> field (py "product_id") second.
Proof.
  intros db skin_concern customer_id. unfold get_product_recommendations.
  destruct (contains (py "주름") _);
    [|destruct (contains (py "색소침착") _)];
    eexists _, _; (split; [reflexivity|]);
    (split; [apply treatment_well_formed; reflexivity|]);
    (split; [apply treatment_well_formed; reflexivity|]);
    intros E; vm_compute in E; discriminate E.
Qed.

(** ** Deep links *)

Lemma link_of_generate (repr : pyval -> pystr)
    (customer_id target_screen : pystr)
    (parameters : option (list (pystr * pyval))) :
  link_of (generate_mobile_deep_link repr customer_id target_screen
             parameters)
  = deep_link_of repr customer_id target_screen parameters.
Proof.
  unfold link_of, generate_mobile_deep_link. rewrite field_deep_link.
  unfold deep_link_of.
  destruct parameters as [[|e es]|].
  - simpl. rewrite app_nil_r. repeat rewrite <- app_assoc. reflexivity.
  - rewrite fold_append_parameter. simpl or_default.
    repeat rewrite <- app_assoc. reflexivity.
  - simpl. rewrite app_nil_r. repeat rewrite <- app_assoc. reflexivity.
Qed.



(** X7. Keys and values are not escaped: a value that contains
    ["&key=value"] yields the same deep link as two separate entries. *)
Theorem deep_link_not_escaped :
  forall (repr : pyval -> pystr) (customer_id target_screen : pystr)
         (key value injected_key injected_value : pystr)
         (entries : list (pystr * pyval)),
    link_of (generate_mobile_deep_link repr customer_id target_screen
               (Some ((key,
                       VStr (value ++ py "&" ++ injected_key ++ py "="
                             ++ injected_value)) :: entries)))
    = link_of (generate_mobile_deep_link repr customer_id target_screen
                 (Some ((key, VStr value)
                        :: (injected_key, VStr injected_value) :: entries))).
Proof.
  intros. rewrite !link_of_generate. unfold deep_link_of.
  cbn [or_default map concat fst snd format_value].
  repeat rewrite <- app_assoc. reflexivity.
Qed.

(** ** Dates and their ordinals *)

Lemma days_before_year_succ (y : Z) :
  days_before_year (y + 1) = days_before_year y + 365 + b2z (is_leap y).
Proof.
  unfold days_before_year, is_leap, b2z. cbv zeta.
  replace (y + 1 - 1) with y by ring.
  pose proof (Z.div_mod y 4 ltac:(discriminate)).
  pose proof (Z.mod_pos_bound y 4 ltac:(reflexivity)).
  pose proof (Z.div_mod y 100 ltac:(discriminate)).
  pose proof (Z.mod_pos_bound y 100 ltac:(reflexivity)).
  pose proof (Z.div_mod y 400 ltac:(discriminate)).
  pose proof (Z.mod_pos_bound y 400 ltac:(reflexivity)).
  pose proof (Z.div_mod (y - 1) 4 ltac:(discriminate)).
  pose proof (Z.mod_pos_bound (y - 1) 4 ltac:(reflexivity)).
  pose proof (Z.div_mod (y - 1) 100 ltac:(discriminate)).
  pose proof (Z.mod_pos_bound (y - 1) 100 ltac:(reflexivity)).
  pose proof (Z.div_mod (y - 1) 400 ltac:(discriminate)).
  pose proof (Z.mod_pos_bound (y - 1) 400 ltac:(reflexivity)).
  destruct (Z.eqb_spec (y mod 4) 0); destruct (Z.eqb_spec (y mod 100) 0);
    destruct (Z.eqb_spec (y mod 400) 0); cbn [andb orb negb]; lia.
Qed.

Lemma days_before_year_mono (y y' : Z) :
  y <= y' -> days_before_year y <= days_before_year y'.
Proof.
  intros Hle. unfold days_before_year. cbv zeta.
  pose proof (Z.div_mod (y - 1) 4 ltac:(discriminate)).
  pose proof (Z.mod_pos_bound (y - 1) 4 ltac:(reflexivity)).
  pose proof (Z.div_mod (y - 1) 100 ltac:(discriminate)).
  pose proof (Z.mod_pos_bound (y - 1) 100 ltac:(reflexivity)).
  pose proof (Z.div_mod (y - 1) 400 ltac:(discriminate)).
  pose proof (Z.mod_pos_bound (y - 1) 400 ltac:(reflexivity)).
  pose proof (Z.div_mod (y' - 1) 4 ltac:(discriminate)).
  pose proof (Z.mod_pos_bound (y' - 1) 4 ltac:(reflexivity)).
  pose proof (Z.div_mod (y' - 1) 100 ltac:(discriminate)).
  pose proof (Z.mod_pos_bound (y' - 1) 100 ltac:(reflexivity)).
  pose proof (Z.div_mod (y' - 1) 400 ltac:(discriminate)).
  pose proof (Z.mod_pos_bound (y' - 1) 400 ltac:(reflexivity)).
  lia.
Qed.

(** Evaluates the month tables and the tests on a given month. *)
Ltac calendar_eval :=
  repeat match goal with
         | |- context [item ?t ?k] =>
             let v := eval vm_compute in (item t k) in
             change (item t k) with v
         | |- context [b2z ?b] =>
             let v := eval vm_compute in (b2z b) in
             change (b2z b) with v
         | |- context [if ?b then _ else _] =>
             let v := eval vm_compute in b in
             change b with v; cbv iota
         end.

Lemma day_of_year_bounds (y m d : Z) :
  1 <= m <= 12 -> 1 <= d <= days_in_month y m ->
  1 <= days_before_month y m + d <= 365 + b2z (is_leap y).
Proof.
  intros Hm.
  assert (H : m = 1 \/ m = 2 \/ m = 3 \/ m = 4 \/ m = 5 \/ m = 6 \/
              m = 7 \/ m = 8 \/ m = 9 \/ m = 10 \/ m = 11 \/ m = 12) by lia.
  unfold days_before_month, days_in_month.
  repeat destruct H as [-> | H]; try subst m;
    destruct (is_leap y); calendar_eval; lia.
Qed.

Lemma day_of_year_inj (y m d m' d' : Z) :
  1 <= m <= 12 -> 1 <= d <= days_in_month y m ->
  1 <= m' <= 12 -> 1 <= d' <= days_in_month y m' ->
  days_before_month y m + d = days_before_month y m' + d' ->
  m = m' /\ d = d'.
Proof.
  intros Hm Hd Hm' Hd'.
  assert (H : m = 1 \/ m = 2 \/ m = 3 \/ m = 4 \/ m = 5 \/ m = 6 \/
              m = 7 \/ m = 8 \/ m = 9 \/ m = 10 \/ m = 11 \/ m = 12) by lia.
  assert (H' : m' = 1 \/ m' = 2 \/ m' = 3 \/ m' = 4 \/ m' = 5 \/ m' = 6 \/
               m' = 7 \/ m' = 8 \/ m' = 9 \/ m' = 10 \/ m' = 11 \/ m' = 12)
    by lia.
  clear Hm Hm'. revert Hd Hd'.
  unfold days_before_month, days_in_month.
  destruct (is_leap y);
    repeat destruct H as [-> | H]; try subst m;
    repeat destruct H' as [-> | H']; try subst m'; calendar_eval; lia.
Qed.

Lemma ymd2ord_inj (y m d y' m' d' : Z) :
  1 <= m <= 12 -> 1 <= d <= days_in_month y m ->
  1 <= m' <= 12 -> 1 <= d' <= days_in_month y' m' ->
  ymd2ord y m d = ymd2ord y' m' d' ->
  y = y' /\ m = m' /\ d = d'.
Proof.
  intros Hm Hd Hm' Hd' E. unfold ymd2ord in E.
  pose proof (day_of_year_bounds y m d Hm Hd) as B.
  pose proof (day_of_year_bounds y' m' d' Hm' Hd') as B'.
  pose proof (days_before_year_succ y) as S1.
  pose proof (days_before_year_succ y') as S2.
  assert (Hy : y = y').
  { destruct (Z.lt_trichotomy y y') as [Hlt | [Heq | Hgt]]; [|exact Heq|].
    - pose proof (days_before_year_mono (y + 1) y' ltac:(lia)). lia.
    - pose proof (days_before_year_mono (y' + 1) y ltac:(lia)). lia. }
  subst y'. split; [reflexivity|].
  apply (day_of_year_inj y); try assumption. lia.
Qed.

Lemma ymd2ord_in_calendar (y m d : Z) :
  1 <= y <= 9999 -> 1 <= m <= 12 -> 1 <= d <= days_in_month y m ->
  1 <= ymd2ord y m d <= MAXORDINAL.
Proof.
  intros Hy Hm Hd. unfold ymd2ord.
  pose proof (day_of_year_bounds y m d Hm Hd) as B.
  pose proof (days_before_year_succ y) as S1.
  pose proof (days_before_year_mono 1 y ltac:(lia)) as Lo.
  pose proof (days_before_year_mono (y + 1) 10000 ltac:(lia)) as Hi.
  change (days_before_year 1) with 0 in Lo.
  change (days_before_year 10000) with MAXORDINAL in Hi. lia.
Qed.

Lemma ord2ymd_ymd2ord (y m d : Z) :
  1 <= y <= 9999 -> 1 <= m <= 12 -> 1 <= d <= days_in_month y m ->
  ord2ymd (ymd2ord y m d) = (y, m, d).
Proof.
  intros Hy Hm Hd.
  destruct (ord2ymd_valid _ (ymd2ord_in_calendar y m d Hy Hm Hd))
    as (y' & m' & d' & E & _ & Hm' & Hd' & Hback).
  destruct (ymd2ord_inj _ _ _ _ _ _ Hm' Hd' Hm Hd Hback) as (-> & -> & ->).
  exact E.
Qed.

(** ** The expiration date of a voucher *)

Lemma qr_voucher_exact (w : world) (days y m d : Z) :
  valid (now w) ->
  1 <= y <= 9999 -> 1 <= m <= 12 -> 1 <= d <= days_in_month y m ->
  ymd2ord y m d = toordinal (now w) + days ->
  qr_voucher w days
  = Returns
      (dict [ (py "status", str "success");
              (py "qr_code_data", str "MOCK_QR_CODE_DATA");
              (py "expiration_date", VStr (yyyy_mm_dd y m d)) ]).
Proof.
  intros Hvalid Hy Hm Hd Hord.
  assert (Hrep : representable (now w) days).
  { unfold representable. rewrite <- Hord.
    apply ymd2ord_in_calendar; assumption. }
  destruct (qr_voucher_in_range w days Hvalid Hrep)
    as (expires & (_ & Hm' & Hd' & _) & Hback & ->).
  rewrite <- Hord in Hback. unfold toordinal in Hback.
  destruct (ymd2ord_inj _ _ _ _ _ _ Hm' Hd' Hm Hd Hback) as (-> & -> & ->).
  reflexivity.
Qed.



(** ** Printing numbers *)

Lemma digits_fuel_acc (base : N) (fuel : nat) :
  forall n acc,
    digits_fuel fuel base n acc = digits_fuel fuel base n [] ++ acc.
Proof.
  induction fuel as [|f IH]; intros n acc; cbn [digits_fuel]; [reflexivity|].
  destruct (n / base =? 0)%N; [reflexivity|].
  rewrite (IH _ ((n mod base)%N :: acc)), (IH _ [(n mod base)%N]).
  rewrite <- app_assoc. reflexivity.
Qed.

Lemma digits_fuel_below (base : N) (fuel : nat) :
  (0 < base)%N ->
  forall n acc,
    Forall (fun d => d < base)%N acc ->
    Forall (fun d => d < base)%N (digits_fuel fuel base n acc).
Proof.
  intros Hb. induction fuel as [|f IH]; intros n acc Hacc;
    cbn [digits_fuel]; [exact Hacc|].
  assert (H : Forall (fun d => d < base)%N ((n mod base)%N :: acc)).
  { constructor; [apply N.mod_lt; lia | exact Hacc]. }
  destruct (n / base =? 0)%N; [exact H | apply IH; exact H].
Qed.

Lemma digits_value_snoc (base : N) (ds : list N) (d : N) :
  digits_value base (ds ++ [d]) = (digits_value base ds * base + d)%N.
Proof. unfold digits_value. rewrite fold_left_app. reflexivity. Qed.

Lemma digits_fuel_value (base : N) (fuel : nat) :
  (2 <= base)%N ->
  forall n, (n < 2 ^ N.of_nat fuel)%N ->
  digits_value base (digits_fuel fuel base n []) = n.
Proof.
  intros Hb. induction fuel as [|f IH]; intros n Hn.
  - cbn in Hn. assert (n = 0%N) by lia. subst. reflexivity.
  - cbn [digits_fuel].
    pose proof (N.div_mod n base ltac:(lia)) as Hdm.
    destruct (N.eqb_spec (n / base) 0) as [E|E].
    + unfold digits_value. cbn. rewrite E in Hdm. lia.
    + rewrite digits_fuel_acc, digits_value_snoc, IH; [lia|].
      rewrite Nat2N.inj_succ, N.pow_succ_r' in Hn.
      apply N.Div0.div_lt_upper_bound.
      assert (base * 2 ^ N.of_nat f >= 2 * 2 ^ N.of_nat f)%N by nia. lia.
Qed.

Lemma digits_fuel_length (base : N) (fuel : nat) :
  (2 <= base)%N ->
  forall n (width : nat),
    (1 <= width)%nat -> (n < base ^ N.of_nat width)%N ->
    (length (digits_fuel fuel base n []) <= width)%nat.
Proof.
  intros Hb. induction fuel as [|f IH]; intros n width Hw Hn;
    cbn [digits_fuel]; [cbn; lia|].
  destruct (N.eqb_spec (n / base) 0) as [E|E]; [cbn; lia|].
  rewrite digits_fuel_acc, length_app. cbn [length].
  destruct width as [|[|w']]; [lia| |].
  - exfalso. apply E. apply N.div_small.
    change (N.of_nat 1) with 1%N in Hn. rewrite N.pow_1_r in Hn. exact Hn.
  - assert (length (digits_fuel f base (n / base) []) <= S w')%nat; [|lia].
    apply IH; [lia|].
    rewrite (Nat2N.inj_succ (S w')), N.pow_succ_r' in Hn.
    apply N.Div0.div_lt_upper_bound. exact Hn.
Qed.

Lemma digits_below (base n : N) :
  (0 < base)%N -> Forall (fun d => d < base)%N (digits base n).
Proof. intros Hb. apply digits_fuel_below; [exact Hb | constructor]. Qed.

Lemma digits_value_digits (base n : N) :
  (2 <= base)%N -> digits_value base (digits base n) = n.
Proof.
  intros Hb. apply digits_fuel_value; [exact Hb|].
  rewrite Nat2N.inj_succ, N2Nat.id.
  destruct n as [|p]; [reflexivity|].
  apply N.log2_spec. reflexivity.
Qed.

Lemma digits_length (base n : N) (width : nat) :
  (2 <= base)%N -> (1 <= width)%nat -> (n < base ^ N.of_nat width)%N ->
  (length (digits base n) <= width)%nat.
Proof. intros. apply digits_fuel_length; assumption. Qed.

Lemma digits_value_zeros (base : N) (k : nat) (ds : list N) :
  digits_value base (repeat 0%N k ++ ds) = digits_value base ds.
Proof.
  unfold digits_value. rewrite fold_left_app. f_equal.
  induction k as [|k IH]; [reflexivity|]. cbn. exact IH.
Qed.

Lemma positional_succ (base : N) (width : nat) (n : N) :
  (0 < base)%N ->
  positional base (S width) n
  = positional base width (n / base) ++ [(n mod base)%N].
Proof.
  intros Hb. unfold positional.
  rewrite <- cons_seq, <- seq_shift. cbn [rev]. rewrite map_app.
  cbn [map]. rewrite N.pow_0_r, N.div_1_r. f_equal.
  rewrite <- map_rev, map_map. apply map_ext. intros k.
  rewrite Nat2N.inj_succ, N.pow_succ_r', N.Div0.div_div. reflexivity.
Qed.

Lemma positional_unique (base : N) (ds : list N) :
  (0 < base)%N ->
  Forall (fun d => d < base)%N ds ->
  ds = positional base (length ds) (digits_value base ds).
Proof.
  intros Hb. induction ds as [|d ds IH] using rev_ind; intros H.
  - reflexivity.
  - apply Forall_app in H. destruct H as [Hds Hd].
    inversion Hd as [|? ? Hlt _]; subst.
    rewrite length_app, Nat.add_1_r, positional_succ by exact Hb.
    rewrite digits_value_snoc.
    replace ((digits_value base ds * base + d) / base)%N
      with (digits_value base ds)
      by (apply N.div_unique with d; [exact Hlt | lia]).
    replace ((digits_value base ds * base + d) mod base)%N with d
      by (apply N.mod_unique with (digits_value base ds); [exact Hlt | lia]).
    rewrite <- IH by exact Hds. reflexivity.
Qed.

(** The padded digits of a number that fits are its positional digits. *)
Lemma padded_digits (base n : N) (width : nat) :
  (2 <= base)%N -> (1 <= width)%nat -> (n < base ^ N.of_nat width)%N ->
  repeat 0%N (width - length (digits base n)) ++ digits base n
  = positional base width n.
Proof.
  intros Hb Hw Hn.
  pose proof (digits_length base n width Hb Hw Hn) as Hlen.
  set (l := repeat 0%N (width - length (digits base n)) ++ digits base n).
  assert (Hl : length l = width)
    by (unfold l; rewrite length_app, repeat_length; lia).
  assert (Hv : digits_value base l = n)
    by (unfold l; rewrite digits_value_zeros;
        apply digits_value_digits; exact Hb).
  assert (Hf : Forall (fun d => d < base)%N l).
  { unfold l. apply Forall_app. split.
    - apply Forall_forall. intros x Hx. apply repeat_spec in Hx.
      rewrite Hx. lia.
    - apply digits_below. lia. }
  clearbody l. rewrite <- Hl, <- Hv.
  apply positional_unique; [lia | exact Hf].
Qed.

(** ** Scheduling numeric time ranges *)

Lemma digit_char_not_dash (d : N) : (d < 10)%N -> digit_char d <> 45%N.
Proof.
  intros Hd. unfold digit_char.
  destruct (N.ltb_spec d 10); lia.
Qed.

Lemma decimal_no_dash (z : Z) : 0 <= z -> ~ In 45%N (decimal z).
Proof.
  intros Hz Hin. destruct z as [|p|p]; [| |lia].
  - cbn in Hin. destruct Hin as [H | []]. discriminate H.
  - cbn [decimal] in Hin. apply in_map_iff in Hin.
    destruct Hin as (d & Hd & Hin).
    pose proof (digits_below 10 (N.pos p) ltac:(reflexivity)) as Hall.
    rewrite Forall_forall in Hall.
    exact (digit_char_not_dash d (Hall d Hin) Hd).
Qed.

Lemma schedule_result (w : world)
    (customer_id date time_range details start : pystr)
    (rest : list pystr) :
  split 45%N time_range = start :: rest ->
  schedule_planting_service w customer_id date time_range details
  = Returns
      (dict [ (py "status", str "success");
              (py "appointment_id", VStr (Uuid.uuid4_str (urandom16 w)));
              (py "date", VStr date);
              (py "time", VStr time_range);
              (py "treatment", VStr details);
              (py "confirmation_time",
               VStr (date ++ py " " ++ start ++ py ":00"));
              (py "location", str "엘리트 뷰티 클리닉 강남점") ]).
Proof.
  intros E. unfold schedule_planting_service. rewrite E. reflexivity.
Qed.

(** X9. For a time range ["<start>-<end>"] of two integers in decimal,
    [schedule_planting_service] confirms at ["<date> <start>:00"] when
    the start is not negative.  A negative start begins with a dash, so
    the start token is empty and the confirmation time is
    ["<date> :00"]. *)
Theorem schedule_planting_service_numeric_range :
  forall (w : world) (customer_id date details : pystr)
         (start_hour end_hour : Z),
    let time_range := decimal start_hour ++ py "-" ++ decimal end_hour in
    (0 <= start_hour ->
     exists result,
       schedule_planting_service w customer_id date time_range details
       = Returns result
       /\ field (py "confirmation_time") result
          = Some (VStr (date ++ py " " ++ decimal start_hour ++ py ":00"))
       /\ field (py "time") result = Some (VStr time_range))
    /\ (start_hour < 0 ->
        exists result,
          schedule_planting_service w customer_id date time_range details
          = Returns result
          /\ field (py "confirmation_time") result
             = Some (VStr (date ++ py " :00"))).
Proof.
  intros w customer_id date details start_hour end_hour time_range.
  subst time_range. change (py "-") with [45%N]. split.
  - intros Hs. eexists. split.
    + eapply schedule_result. cbn [app].
      apply split_at_first_separator, decimal_no_dash, Hs.
    + split; reflexivity.
  - intros Hs. destruct start_hour as [|p|p]; try lia.
    eexists. split.
    + eapply schedule_result. cbn [decimal app split].
      rewrite N.eqb_refl. reflexivity.
    + reflexivity.
Qed.

Lemma schedule_planting_service_numeric_range_witness :
  0 <= 14
  /\ exists result,
       schedule_planting_service sample_world (py "123") (py "2024-07-29")
         (py "14-16") (py "필러")
       = Returns result
       /\ field (py "confirmation_time") result
          = Some (str "2024-07-29 14:00").
Proof.
  split; [lia|].
  destruct (proj1 (schedule_planting_service_numeric_range sample_world
                     (py "123") (py "2024-07-29") (py "필러") 14 16)
              ltac:(lia))
    as (result & E & Hc & _).
  exists result. split; [exact E | exact Hc].
Defined.

(** X10. Every slot that [get_available_planting_times] offers, for
    whatever date, is accepted by [schedule_planting_service], echoed as
    [time], and confirmed at its first hour, which lies between 9 and
    18. *)
Theorem offered_slots_schedule :
  forall (w : world) (customer_id date asked_date details slot : pystr)
         (slots : list pyval),
    get_available_planting_times asked_date = VList slots ->
    In (VStr slot) slots ->
    exists hour result,
      9 <= hour <= 18
      /\ schedule_planting_service w customer_id date slot details
         = Returns result
      /\ field (py "status") result = Some (str "success")
      /\ field (py "time") result = Some (VStr slot)
      /\ field (py "confirmation_time") result
         = Some (VStr (date ++ py " " ++ decimal hour ++ py ":00")).
Proof.
  intros w customer_id date asked_date details slot slots E Hin.
  unfold get_available_planting_times in E. injection E as <-.
  assert (Hcase : exists a b, 9 <= a <= 18 /\ 0 <= a
                              /\ slot = decimal a ++ py "-" ++ decimal b).
  { cbn [In] in Hin.
    destruct Hin as [H | [H | [H | [H | [H | []]]]]];
      injection H as <-.
    - exists 9, 11. repeat split; lia.
    - exists 11, 13. repeat split; lia.
    - exists 14, 16. repeat split; lia.
    - exists 16, 18. repeat split; lia.
    - exists 18, 20. repeat split; lia. }
  destruct Hcase as (a & b & Ha & Ha0 & ->).
  exists a. eexists. split; [exact Ha|]. split.
  - eapply schedule_result. change (py "-") with [45%N]. cbn [app].
    apply split_at_first_separator, decimal_no_dash, Ha0.
  - repeat split.
Qed.

Lemma offered_slots_schedule_witness :
  In (str "16-18") [ str "9-11"; str "11-13"; str "14-16"; str "16-18";
                     str "18-20" ]
  /\ exists hour result,
       9 <= hour <= 18
       /\ schedule_planting_service sample_world (py "123")
            (py "2024-07-29") (py "16-18") (py "보톡스")
          = Returns result
       /\ field (py "status") result = Some (str "success").
Proof.
  assert (Hin : In (str "16-18")
                  [ str "9-11"; str "11-13"; str "14-16"; str "16-18";
                    str "18-20" ])
    by (right; right; right; left; reflexivity).
  split; [exact Hin|].
  destruct (offered_slots_schedule sample_world (py "123") (py "2024-07-29")
              (py "2024-07-29") (py "보톡스") (py "16-18") _ eq_refl Hin)
    as (hour & result & Hh & E & Hs & _).
  exists hour, result. repeat split; try exact E; try exact Hs; apply Hh.
Defined.

(** ** Identifiers *)

Lemma from_bytes_snoc (bs : list N) (b : N) :
  Uuid.from_bytes (bs ++ [b]) = Uuid.from_bytes bs * 256 + Z.of_N b.
Proof. unfold Uuid.from_bytes. rewrite fold_left_app. reflexivity. Qed.

Lemma from_bytes_bounds (bs : list N) :
  Forall (fun b => b < 256)%N bs ->
  0 <= Uuid.from_bytes bs < 256 ^ Z.of_nat (length bs).
Proof.
  induction bs as [|b bs IH] using rev_ind; intros H.
  - cbn. lia.
  - apply Forall_app in H. destruct H as [Hbs Hb].
    inversion Hb as [|? ? Hlt _]; subst.
    specialize (IH Hbs).
    rewrite from_bytes_snoc, length_app, Nat.add_1_r, Nat2Z.inj_succ,
      Z.pow_succ_r by lia.
    lia.
Qed.

Lemma below_pow2_bits (x n : Z) :
  0 <= n -> 0 <= x ->
  (x < 2 ^ n <-> forall k, n <= k -> Z.testbit x k = false).
Proof.
  intros Hn Hx. split.
  - intros Hlt k Hk.
    destruct (Z.eq_dec x 0) as [->|Hne]; [apply Z.bits_0|].
    apply Z.bits_above_log2; [exact Hx|].
    apply Z.log2_lt_pow2 in Hlt; lia.
  - intros Hbits.
    destruct (Z_lt_le_dec x (2 ^ n)) as [Hlt|Hge]; [exact Hlt|].
    exfalso.
    assert (Hpos : 0 < x) by (pose proof (Z.pow_pos_nonneg 2 n); lia).
    apply Z.log2_le_pow2 in Hge; [|exact Hpos].
    pose proof (Z.bit_log2 x Hpos) as Hb.
    rewrite (Hbits _ Hge) in Hb. discriminate Hb.
Qed.

Lemma uuid4_int_kept (bs : list N) :
  Uuid.uuid4_int bs
  = Z.lor (Z.land (Uuid.from_bytes bs) uuid_kept_bits)
      (Z.lor (Z.shiftl 32768 48) (Z.shiftl 4 76)).
Proof.
  unfold Uuid.uuid4_int, uuid_kept_bits. cbv zeta.
  set (i := Uuid.from_bytes bs).
  apply Z.bits_inj'. intros k Hk.
  rewrite !Z.lor_spec, !Z.land_spec, !Z.lor_spec, !Z.land_spec,
    !Z.lnot_spec, !Z.lor_spec by exact Hk.
  destruct (Z.testbit i k), (Z.testbit (Z.shiftl 49152 48) k) eqn:EA,
    (Z.testbit (Z.shiftl 32768 48) k) eqn:EB,
    (Z.testbit (Z.shiftl 61440 64) k) eqn:EC,
    (Z.testbit (Z.shiftl 4 76) k) eqn:ED; try reflexivity; exfalso.
  all: assert (HBC : Z.testbit (Z.land (Z.shiftl 32768 48)
                                  (Z.shiftl 61440 64)) k = false)
         by (change (Z.land (Z.shiftl 32768 48) (Z.shiftl 61440 64)) with 0;
             apply Z.bits_0).
  all: rewrite Z.land_spec, EB, EC in HBC; discriminate HBC.
Qed.

Lemma uuid4_int_bounds (bs : list N) :
  sixteen_bytes bs -> 0 <= Uuid.uuid4_int bs < 2 ^ 128.
Proof.
  intros [Hlen Hall].
  pose proof (from_bytes_bounds bs Hall) as Hi. rewrite Hlen in Hi.
  change (256 ^ Z.of_nat 16) with (2 ^ 128) in Hi.
  rewrite uuid4_int_kept.
  set (i := Uuid.from_bytes bs) in *.
  set (F := Z.lor (Z.shiftl 32768 48) (Z.shiftl 4 76)).
  assert (HF : 0 <= F < 2 ^ 128) by (vm_compute; split; [discriminate | reflexivity]).
  assert (Hnn : 0 <= Z.lor (Z.land i uuid_kept_bits) F).
  { apply Z.lor_nonneg. split; [apply Z.land_nonneg; left|]; lia. }
  split; [exact Hnn|].
  apply below_pow2_bits; [lia | exact Hnn|].
  intros k Hk.
  rewrite Z.lor_spec, Z.land_spec.
  rewrite (proj1 (below_pow2_bits i 128 ltac:(lia) ltac:(lia)) ltac:(lia) k Hk).
  rewrite (proj1 (below_pow2_bits F 128 ltac:(lia) ltac:(lia)) ltac:(lia) k Hk).
  reflexivity.
Qed.

Lemma hex_pad_positional (width : nat) (n : N) :
  (1 <= width)%nat -> (n < 16 ^ N.of_nat width)%N ->
  hex_pad width n = map digit_char (positional 16 width n).
Proof.
  intros Hw Hn. unfold hex_pad, zfill.
  rewrite <- (padded_digits 16 n width ltac:(lia) Hw Hn).
  rewrite map_app, map_repeat, length_map. reflexivity.
Qed.

Lemma uuid4_str_explicit (bs : list N) :
  sixteen_bytes bs ->
  let n := Z.to_N (Uuid.uuid4_int bs) in
  let h := fun k : N => digit_char ((n / 16 ^ k) mod 16)%N in
  Uuid.uuid4_str bs
  = [ h 31; h 30; h 29; h 28; h 27; h 26; h 25; h 24; 45;
      h 23; h 22; h 21; h 20; 45; h 19; h 18; h 17; h 16; 45;
      h 15; h 14; h 13; h 12; 45;
      h 11; h 10; h 9; h 8; h 7; h 6; h 5; h 4; h 3; h 2; h 1; h 0 ]%N.
Proof.
  intros Hbs n h.
  pose proof (uuid4_int_bounds bs Hbs) as Hx.
  unfold Uuid.uuid4_str. cbv zeta. fold n.
  rewrite hex_pad_positional.
  - reflexivity.
  - lia.
  - change (16 ^ N.of_nat 32)%N with (Z.to_N (2 ^ 128)).
    unfold n. apply Z2N.inj_lt; lia.
Qed.

Lemma is_hex_digit_char (d : N) :
  (d < 16)%N -> is_hex_char (digit_char d) = true.
Proof.
  intros Hd. unfold is_hex_char, digit_char.
  destruct (N.ltb_spec d 10).
  - apply orb_true_iff. left. apply andb_true_iff.
    split; apply N.leb_le; lia.
  - apply orb_true_iff. right. apply andb_true_iff.
    split; apply N.leb_le; lia.
Qed.

Lemma digit_char_inj (a b : N) :
  (a < 16)%N -> (b < 16)%N -> digit_char a = digit_char b -> a = b.
Proof.
  unfold digit_char. intros Ha Hb.
  destruct (N.ltb_spec a 10), (N.ltb_spec b 10); lia.
Qed.

(** The hexadecimal digit of weight [16 ^ k], read from the bits. *)
Lemma hex_digit_bits (x : Z) (k : N) :
  0 <= x ->
  Z.of_N ((Z.to_N x / 16 ^ k) mod 16)%N
  = Z.land (Z.shiftr x (4 * Z.of_N k)) 15.
Proof.
  intros Hx.
  rewrite N2Z.inj_mod, N2Z.inj_div, N2Z.inj_pow, Z2N.id by exact Hx.
  change 15 with (Z.ones 4). rewrite Z.land_ones by lia.
  rewrite Z.shiftr_div_pow2 by lia.
  rewrite Z.pow_mul_r by lia. reflexivity.
Qed.

Lemma uuid4_version_digit (bs : list N) :
  sixteen_bytes bs ->
  ((Z.to_N (Uuid.uuid4_int bs) / 16 ^ 19) mod 16)%N = 4%N.
Proof.
  intros Hbs. pose proof (uuid4_int_bounds bs Hbs) as Hx.
  apply N2Z.inj. rewrite hex_digit_bits by lia.
  rewrite uuid4_int_kept.
  rewrite Z.shiftr_lor, Z.shiftr_land, Z.land_lor_distr_l, <- Z.land_assoc.
  change (Z.land (Z.shiftr uuid_kept_bits (4 * Z.of_N 19)) 15) with 0.
  rewrite Z.land_0_r. reflexivity.
Qed.

Lemma uuid4_variant_digit (bs : list N) :
  sixteen_bytes bs ->
  (8 <= (Z.to_N (Uuid.uuid4_int bs) / 16 ^ 15) mod 16 <= 11)%N.
Proof.
  intros Hbs. pose proof (uuid4_int_bounds bs Hbs) as Hx.
  assert (H : 8 <= Z.of_N ((Z.to_N (Uuid.uuid4_int bs) / 16 ^ 15) mod 16)
              <= 11); [|lia].
  rewrite hex_digit_bits by lia.
  rewrite uuid4_int_kept.
  rewrite Z.shiftr_lor, Z.shiftr_land, Z.land_lor_distr_l, <- Z.land_assoc.
  change (Z.land (Z.shiftr uuid_kept_bits (4 * Z.of_N 15)) 15) with 3.
  change (Z.land
            (Z.shiftr (Z.lor (Z.shiftl 32768 48) (Z.shiftl 4 76))
               (4 * Z.of_N 15)) 15) with 8.
  set (i := Z.shiftr (Uuid.from_bytes bs) (4 * Z.of_N 15)).
  change 3 with (Z.ones 2). rewrite Z.land_ones by lia.
  pose proof (Z.mod_pos_bound i (2 ^ 2) ltac:(reflexivity)) as Hm.
  change (2 ^ 2) with 4 in *.
  assert (Hc : i mod 4 = 0 \/ i mod 4 = 1 \/ i mod 4 = 2 \/ i mod 4 = 3)
    by lia.
  destruct Hc as [-> | [-> | [-> | ->]]]; cbn; lia.
Qed.

Lemma uuid4_str_format (bs : list N) :
  sixteen_bytes bs ->
  length (Uuid.uuid4_str bs) = 36%nat
  /\ (forall (position : nat) (c : cp),
        nth_error (Uuid.uuid4_str bs) position = Some c ->
        if existsb (Nat.eqb position) [8; 13; 18; 23]%nat
        then c = 45%N
        else is_hex_char c = true)
  /\ nth_error (Uuid.uuid4_str bs) 14 = Some 52%N
  /\ (exists v, nth_error (Uuid.uuid4_str bs) 19 = Some v
                /\ In v [56; 57; 97; 98]%N).
Proof.
  intros Hbs.
  pose proof (uuid4_version_digit bs Hbs) as Hver.
  pose proof (uuid4_variant_digit bs Hbs) as Hvar.
  rewrite (uuid4_str_explicit bs Hbs).
  set (n := Z.to_N (Uuid.uuid4_int bs)) in *.
  split; [reflexivity|]. split; [|split].
  - intros position c H.
    do 36 (destruct position as [|position];
           [cbn in H; injection H as <-; cbn [existsb Nat.eqb orb];
            first [reflexivity
                  | apply is_hex_digit_char, N.mod_lt; discriminate]|]).
    cbn in H. destruct position; discriminate H.
  - cbn [nth_error]. rewrite Hver. reflexivity.
  - eexists. split; [reflexivity|].
    set (d := ((n / 16 ^ 15) mod 16)%N) in *.
    assert (Hd : (d = 8 \/ d = 9 \/ d = 10 \/ d = 11)%N) by lia.
    destruct Hd as [-> | [-> | [-> | ->]]]; cbn; tauto.
Qed.

(** X11. Given the sixteen random bytes of the system, the
    [appointment_id] of [schedule_planting_service] and the
    [notification_id] of [send_mobile_app_notification] have the shape
    of a version-4 UUID: 36 characters, dashes at positions 8, 13, 18
    and 23, lowercase hexadecimal digits elsewhere, the digit 4 at
    position 14 and one of 8, 9, a, b at position 19. *)
Theorem generated_ids_are_uuid4 :
  forall (w : world)
         (customer_id date time_range details message : pystr)
         (notification_type : option pystr),
    sixteen_bytes (urandom16 w) ->
    (exists id,
       appointment_id_of
         (schedule_planting_service w customer_id date time_range details)
       = Some (VStr id)
       /\ uuid4_shape id)
    /\ (exists id,
          field (py "notification_id")
            (send_mobile_app_notification w customer_id message
               notification_type)
          = Some (VStr id)
          /\ uuid4_shape id).
Proof.
  intros w customer_id date time_range details message notification_type
    Hbs.
  split.
  - destruct (split_nonempty 45%N time_range) as [first [rest E]].
    rewrite (schedule_result w customer_id date time_range details _ _ E).
    eexists. split; [reflexivity|].
    apply uuid4_str_format, Hbs.
  - eexists. split; [reflexivity|].
    apply uuid4_str_format, Hbs.
Qed.

Lemma sample_bytes : sixteen_bytes (urandom16 sample_world).
Proof.
  split; [reflexivity|].
  repeat (constructor; [reflexivity|]). constructor.
Qed.

Lemma generated_ids_are_uuid4_witness :
  sixteen_bytes (urandom16 sample_world)
  /\ exists id,
       appointment_id_of
         (schedule_planting_service sample_world (py "123")
            (py "2024-07-29") (py "9-12") (py "보톡스"))
       = Some (VStr id)
       /\ uuid4_shape id.
Proof.
  split; [exact sample_bytes|].
  exact (proj1 (generated_ids_are_uuid4 sample_world (py "123")
                  (py "2024-07-29") (py "9-12") (py "보톡스") (py "") None
                  sample_bytes)).
Defined.

Lemma positional_value (n : N) :
  (n < 16 ^ N.of_nat 32)%N -> digits_value 16 (positional 16 32 n) = n.
Proof.
  intros Hn.
  rewrite <- (padded_digits 16 n 32 ltac:(lia) ltac:(lia) Hn).
  rewrite digits_value_zeros. apply digits_value_digits. lia.
Qed.

Lemma uuid4_str_inj (bs1 bs2 : list N) :
  sixteen_bytes bs1 -> sixteen_bytes bs2 ->
  Uuid.uuid4_str bs1 = Uuid.uuid4_str bs2 ->
  Uuid.uuid4_int bs1 = Uuid.uuid4_int bs2.
Proof.
  intros H1 H2 E.
  pose proof (uuid4_int_bounds bs1 H1) as B1.
  pose proof (uuid4_int_bounds bs2 H2) as B2.
  rewrite (uuid4_str_explicit bs1 H1), (uuid4_str_explicit bs2 H2) in E.
  cbv zeta in E.
  set (n1 := Z.to_N (Uuid.uuid4_int bs1)) in *.
  set (n2 := Z.to_N (Uuid.uuid4_int bs2)) in *.
  assert (Hn : n1 = n2).
  { assert (L1 : (n1 < 16 ^ N.of_nat 32)%N).
    { change (16 ^ N.of_nat 32)%N with (Z.to_N (2 ^ 128)).
      unfold n1. apply Z2N.inj_lt; lia. }
    assert (L2 : (n2 < 16 ^ N.of_nat 32)%N).
    { change (16 ^ N.of_nat 32)%N with (Z.to_N (2 ^ 128)).
      unfold n2. apply Z2N.inj_lt; lia. }
    rewrite <- (positional_value n1 L1), <- (positional_value n2 L2).
    f_equal.
    injection E; intros.
    change (positional 16 32 n1)
      with (map (fun k => (n1 / 16 ^ k) mod 16)%N
              [31; 30; 29; 28; 27; 26; 25; 24; 23; 22; 21; 20; 19; 18; 17;
               16; 15; 14; 13; 12; 11; 10; 9; 8; 7; 6; 5; 4; 3; 2; 1; 0]%N).
    change (positional 16 32 n2)
      with (map (fun k => (n2 / 16 ^ k) mod 16)%N
              [31; 30; 29; 28; 27; 26; 25; 24; 23; 22; 21; 20; 19; 18; 17;
               16; 15; 14; 13; 12; 11; 10; 9; 8; 7; 6; 5; 4; 3; 2; 1; 0]%N).
    cbn [map].
    repeat match goal with
           | |- _ :: _ = _ :: _ =>
               apply (f_equal2 cons);
               [apply digit_char_inj;
                [apply N.mod_lt; discriminate
                | apply N.mod_lt; discriminate
                | assumption]|]
           end.
    reflexivity. }
  unfold n1, n2 in Hn. apply Z2N.inj in Hn; lia.
Qed.

(** X12. Two calls of [schedule_planting_service], whatever their
    arguments, return the same [appointment_id] exactly when their
    random bytes agree on every bit except the six bits that the UUID
    format overwrites. *)
Theorem appointment_id_collisions :
  forall (w1 w2 : world)
         (customer_id1 date1 time_range1 details1 : pystr)
         (customer_id2 date2 time_range2 details2 : pystr),
    sixteen_bytes (urandom16 w1) -> sixteen_bytes (urandom16 w2) ->
    (appointment_id_of
       (schedule_planting_service w1 customer_id1 date1 time_range1
          details1)
     = appointment_id_of
         (schedule_planting_service w2 customer_id2 date2 time_range2
            details2)
     <-> Z.land (Uuid.from_bytes (urandom16 w1)) uuid_kept_bits
         = Z.land (Uuid.from_bytes (urandom16 w2)) uuid_kept_bits).
Proof.
  intros w1 w2 c1 d1 t1 x1 c2 d2 t2 x2 H1 H2.
  destruct (split_nonempty 45%N t1) as [f1 [r1 E1]].
  destruct (split_nonempty 45%N t2) as [f2 [r2 E2]].
  rewrite (schedule_result w1 c1 d1 t1 x1 _ _ E1),
    (schedule_result w2 c2 d2 t2 x2 _ _ E2).
  change (appointment_id_of
            (Returns
               (dict [ (py "status", str "success");
                       (py "appointment_id",
                        VStr (Uuid.uuid4_str (urandom16 w1)));
                       (py "date", VStr d1); (py "time", VStr t1);
                       (py "treatment", VStr x1);
                       (py "confirmation_time",
                        VStr (d1 ++ py " " ++ f1 ++ py ":00"));
                       (py "location", str "엘리트 뷰티 클리닉 강남점") ])))
    with (Some (VStr (Uuid.uuid4_str (urandom16 w1)))).
  change (appointment_id_of
            (Returns
               (dict [ (py "status", str "success");
                       (py "appointment_id",
                        VStr (Uuid.uuid4_str (urandom16 w2)));
                       (py "date", VStr d2); (py "time", VStr t2);
                       (py "treatment", VStr x2);
                       (py "confirmation_time",
                        VStr (d2 ++ py " " ++ f2 ++ py ":00"));
                       (py "location", str "엘리트 뷰티 클리닉 강남점") ])))
    with (Some (VStr (Uuid.uuid4_str (urandom16 w2)))).
  set (F := Z.lor (Z.shiftl 32768 48) (Z.shiftl 4 76)).
  assert (Hback : forall i,
             Z.land (Z.lor (Z.land i uuid_kept_bits) F) uuid_kept_bits
             = Z.land i uuid_kept_bits).
  { intros i. rewrite Z.land_lor_distr_l, <- Z.land_assoc, Z.land_diag.
    change (Z.land F uuid_kept_bits) with 0. apply Z.lor_0_r. }
  split.
  - intros E. injection E as E.
    apply (uuid4_str_inj _ _ H1 H2) in E.
    rewrite !uuid4_int_kept in E. fold F in E.
    rewrite <- (Hback (Uuid.from_bytes (urandom16 w1))), E. apply Hback.
  - intros E. do 2 f_equal. unfold Uuid.uuid4_str.
    rewrite !uuid4_int_kept, E. reflexivity.
Qed.

Lemma appointment_id_collisions_witness :
  sixteen_bytes (urandom16 sample_world)
  /\ sixteen_bytes (urandom16 sample_world_other)
  /\ urandom16 sample_world <> urandom16 sample_world_other
  /\ appointment_id_of
       (schedule_planting_service sample_world (py "123") (py "2024-07-29")
          (py "9-12") (py "보톡스"))
     = appointment_id_of
         (schedule_planting_service sample_world_other (py "456")
            (py "2024-08-01") (py "14-16") (py "필러")).
Proof.
  assert (Hother : sixteen_bytes (urandom16 sample_world_other)).
  { split; [reflexivity|].
    repeat (constructor; [reflexivity|]). constructor. }
  split; [exact sample_bytes|]. split; [exact Hother|].
  split; [discriminate|].
  apply (appointment_id_collisions sample_world sample_world_other
           (py "123") (py "2024-07-29") (py "9-12") (py "보톡스")
           (py "456") (py "2024-08-01") (py "14-16") (py "필러")
           sample_bytes Hother).
  reflexivity.
Defined.

(** ** Timestamps *)

Lemma decimal_digits (z : Z) :
  0 <= z -> decimal z = map digit_char (digits 10 (Z.to_N z)).
Proof. intros Hz. destruct z as [|p|p]; [reflexivity | reflexivity | lia]. Qed.

Lemma digit_char_digit_at (z : Z) (k : nat) :
  0 <= z ->
  digit_char ((Z.to_N z / 10 ^ N.of_nat k) mod 10)%N
  = digit_at z (Z.of_nat k).
Proof.
  intros Hz. unfold digit_char, digit_at.
  assert (Hd : ((Z.to_N z / 10 ^ N.of_nat k) mod 10 < 10)%N)
    by (apply N.mod_lt; discriminate).
  destruct (N.ltb_spec ((Z.to_N z / 10 ^ N.of_nat k) mod 10) 10); [|lia].
  apply N2Z.inj.
  rewrite N2Z.inj_add, N2Z.inj_mod, N2Z.inj_div, N2Z.inj_pow, Z2N.id,
    nat_N_Z by exact Hz.
  rewrite Z2N.id; [reflexivity|].
  pose proof (Z.mod_pos_bound (z / 10 ^ Z.of_nat k) 10 ltac:(reflexivity)).
  lia.
Qed.

Lemma decimal_pad_positional (width : nat) (z : Z) :
  (1 <= width)%nat -> 0 <= z < 10 ^ Z.of_nat width ->
  decimal_pad width z
  = map (fun k => digit_at z (Z.of_nat k)) (rev (seq 0 width)).
Proof.
  intros Hw Hz. unfold decimal_pad, zfill.
  rewrite decimal_digits by lia.
  assert (Hn : (Z.to_N z < 10 ^ N.of_nat width)%N).
  { apply N2Z.inj_lt. rewrite Z2N.id, N2Z.inj_pow, nat_N_Z by lia. lia. }
  transitivity (map digit_char (positional 10 width (Z.to_N z))).
  - rewrite <- (padded_digits 10 (Z.to_N z) width ltac:(lia) Hw Hn).
    rewrite map_app, map_repeat, length_map. reflexivity.
  - unfold positional. rewrite map_map. apply map_ext.
    intros k. apply digit_char_digit_at. lia.
Qed.

Lemma isoformat_shape (dt : datetime) :
  valid dt ->
  isoformat dt
  = yyyy_mm_dd (year dt) (month dt) (day dt)
    ++ [ 84%N; digit_at (hour dt) 1; digit_at (hour dt) 0; 58%N;
         digit_at (minute dt) 1; digit_at (minute dt) 0; 58%N;
         digit_at (second dt) 1; digit_at (second dt) 0 ]
    ++ (if microsecond dt =? 0 then []
        else [ 46%N; digit_at (microsecond dt) 5;
               digit_at (microsecond dt) 4; digit_at (microsecond dt) 3;
               digit_at (microsecond dt) 2; digit_at (microsecond dt) 1;
               digit_at (microsecond dt) 0 ]).
Proof.
  intros (Hy & Hm & Hd & Hh & Hmi & Hs & Hus).
  pose proof (days_in_month_bounds (year dt) _ Hm).
  unfold isoformat.
  rewrite (decimal_pad_positional 4 (year dt)) by (cbn; lia).
  rewrite (decimal_pad_positional 2 (month dt)) by (cbn; lia).
  rewrite (decimal_pad_positional 2 (day dt)) by (cbn; lia).
  rewrite (decimal_pad_positional 2 (hour dt)) by (cbn; lia).
  rewrite (decimal_pad_positional 2 (minute dt)) by (cbn; lia).
  rewrite (decimal_pad_positional 2 (second dt)) by (cbn; lia).
  rewrite (decimal_pad_positional 6 (microsecond dt)) by (cbn; lia).
  destruct (microsecond dt =? 0); reflexivity.
Qed.

(** X13. With a valid clock, the [sync_timestamp] of
    [sync_customer_data_to_app] starts with the clock's date written
    [YYYY-MM-DD], followed by "T"; it has 19 characters when the clock's
    microsecond is 0 and 26 otherwise.  Its first ten characters are the
    [expiration_date] of a voucher that [generate_qr_code] issues with
    zero expiration days on the same clock. *)
Theorem sync_timestamp_format :
  forall (w : world) (customer_id : pystr),
    valid (now w) ->
    exists timestamp,
      field (py "sync_timestamp") (sync_customer_data_to_app w customer_id)
      = Some (VStr timestamp)
      /\ firstn 10 timestamp
         = yyyy_mm_dd (year (now w)) (month (now w)) (day (now w))
      /\ nth_error timestamp 10 = Some 84%N
      /\ length timestamp
         = (if microsecond (now w) =? 0 then 19%nat else 26%nat)
      /\ forall (voucher_customer discount_type : pystr)
                (discount_value : pynum),
           ~ over_percentage_cap discount_type discount_value ->
           ~ over_fixed_cap discount_type discount_value ->
           generate_qr_code w voucher_customer discount_value discount_type 0
           = Returns
               (dict [ (py "status", str "success");
                       (py "qr_code_data", str "MOCK_QR_CODE_DATA");
                       (py "expiration_date",
                        VStr (firstn 10 timestamp)) ]).
Proof.
  intros w customer_id Hvalid.
  exists (isoformat (now w)). split; [reflexivity|].
  rewrite (isoformat_shape _ Hvalid).
  split; [reflexivity|]. split; [reflexivity|]. split.
  - destruct (microsecond (now w) =? 0); reflexivity.
  - intros voucher_customer t v H1 H2.
    rewrite (generate_qr_code_accepted w voucher_customer v t 0)
      by (apply not_true_is_false; rewrite refuses_qr_iff; tauto).
    pose proof Hvalid as (Hy & Hm & Hd & _).
    apply qr_voucher_exact; try assumption.
    unfold toordinal. lia.
Qed.

Lemma sync_timestamp_format_witness :
  valid (now sample_world)
  /\ exists timestamp,
       field (py "sync_timestamp")
         (sync_customer_data_to_app sample_world (py "123"))
       = Some (VStr timestamp)
       /\ firstn 10 timestamp = py "2024-07-25"
       /\ length timestamp = 19%nat.
Proof.
  split; [exact sample_now_valid|].
  destruct (sync_timestamp_format sample_world (py "123") sample_now_valid)
    as (timestamp & E & Hdate & _ & Hlen & _).
  exists timestamp. split; [exact E|]. split; [exact Hdate | exact Hlen].
Defined.

(** ** Delivery methods *)

(** X14. [send_care_instructions] and [send_satisfaction_survey] know
    one delivery method, "email": every other method gives the same
    result as any other, the SMS wording, which differs from the result
    for "email"; the survey's omitted method counts as "email". *)
Theorem delivery_method_wording :
  forall (customer_id treatment_type method other : pystr),
    method <> py "email" -> other <> py "email" ->
    send_care_instructions customer_id treatment_type method
    = send_care_instructions customer_id treatment_type other
    /\ send_satisfaction_survey customer_id treatment_type (Some method)
       = send_satisfaction_survey customer_id treatment_type (Some other)
    /\ send_care_instructions customer_id treatment_type method
       <> send_care_instructions customer_id treatment_type (py "email")
    /\ send_satisfaction_survey customer_id treatment_type (Some method)
       <> send_satisfaction_survey customer_id treatment_type None
    /\ send_satisfaction_survey customer_id treatment_type None
       = send_satisfaction_survey customer_id treatment_type
           (Some (py "email")).
Proof.
  intros customer_id treatment_type method other Hm Ho.
  apply pystr_eqb_neq in Hm, Ho.
  unfold send_care_instructions, send_satisfaction_survey.
  cbn [or_default]. rewrite Hm, Ho.
  change (pystr_eqb (py "email") (py "email")) with true. cbv iota.
  repeat apply conj; try reflexivity.
  - intros E. injection E as E. apply app_inv_head in E.
    vm_compute in E. discriminate E.
  - intros E. injection E as E. apply app_inv_head in E.
    vm_compute in E. discriminate E.
Qed.

Lemma delivery_method_wording_witness :
  py "push" <> py "email" /\ py "Email" <> py "email"
  /\ send_care_instructions (py "123") (py "보톡스") (py "push")
     = send_care_instructions (py "123") (py "보톡스") (py "Email").
Proof.
  assert (H1 : py "push" <> py "email") by discriminate.
  assert (H2 : py "Email" <> py "email") by discriminate.
  split; [exact H1|]. split; [exact H2|].
  exact (proj1 (delivery_method_wording (py "123") (py "보톡스") (py "push")
                  (py "Email") H1 H2)).
Defined.

(** ** The cart *)

(** X15. For every customer id, the cart of [access_cart_information]
    is not empty, each item has a product id, a name, a positive
    quantity and a positive price, and the subtotal is the sum of price
    times quantity over the items. *)
Theorem cart_subtotal_consistent :
  forall customer_id : pystr,
    exists items subtotal,
      field (py "items") (access_cart_information customer_id)
      = Some (VList items)
      /\ field (py "subtotal") (access_cart_information customer_id)
         = Some (VInt subtotal)
      /\ items <> []
      /\ Forall cart_line items
      /\ cart_total items = Some subtotal.
Proof.
  intros customer_id. eexists _, _.
  split; [reflexivity|]. split; [reflexivity|].
  split; [discriminate|]. split; [|reflexivity].
  repeat constructor; eexists _, _, _, _; repeat split; reflexivity.
Qed.

(** ** Witnesses *)

Lemma send_appointment_reminder_fallback_witness :
  or_default (Some (py "1week")) (py "24h") <> py "24h"
  /\ field (py "status")
       (send_appointment_reminder (py "123") (py "apt123")
          (Some (py "1week")))
     = Some (str "success")
  /\ field (py "message")
       (send_appointment_reminder (py "123") (py "apt123")
          (Some (py "1week")))
     = Some generic_reminder.
Proof.
  assert (H : or_default (Some (py "1week")) (py "24h") <> py "24h")
    by discriminate.
  split; [exact H|].
  destruct (send_appointment_reminder_fallback (py "123") (py "apt123")
              (Some (py "1week")))
    as (Hs & _ & _ & _ & _ & _ & Hg).
  split; [exact Hs|].
  apply Hg. repeat split; discriminate.
Defined.

Lemma collect_feedback_stored_rating_witness :
  field (py "rating")
    (collect_feedback (py "123") 4 (py "만족") (py "필러"))
  = Some (VInt 4)
  /\ 1 <= 4 <= 5
  /\ field (py "rating")
       (collect_feedback (py "123") 0 (py "만족") (py "필러"))
     = None.
Proof.
  assert (H : field (py "rating")
                (collect_feedback (py "123") 4 (py "만족") (py "필러"))
              = Some (VInt 4)) by reflexivity.
  split; [exact H|]. split.
  - exact (proj1 (proj2 (proj1 (collect_feedback_stored_rating (py "123")
                                  (py "만족") (py "필러") 4) _ H))).
  - apply (proj1 (proj2 (collect_feedback_stored_rating (py "123")
                           (py "만족") (py "필러") 0))).
    left. lia.
Defined.
